(** * Tuya BLE number platform: a shallow embedding of
    [custom_components/tuya_ble/number.py] and the properties of its
    registry, accessors and entity adapters. *)

From Stdlib Require Import ZArith List Lia Bool.
From Stdlib.Strings Require Import String Byte.
From Stdlib Require Import Floats.SpecFloat.
From stdpp Require Import base option gmap strings list.

Local Open Scope string_scope.
Local Open Scope list_scope.
Local Open Scope Z_scope.

(* ===================================================================== *)
(** * Python values used by the module *)
(* ===================================================================== *)

(** Exceptions the modelled code can raise. *)
Inductive exn :=
  | NameError (name : string)
  | AttributeError (attr : string)
  | IndexError
  | ValueError
  | OverflowError
  | TypeError
  | ZeroDivisionError.

(** A Python evaluation either returns or raises. *)
Inductive outcome (A : Type) :=
  | Ok (a : A)
  | Raise (e : exn).
Arguments Ok {A} a.
Arguments Raise {A} e.

Definition obind {A B} (x : outcome A) (k : A -> outcome B) : outcome B :=
  match x with
  | Ok a => k a
  | Raise e => Raise e
  end.

Declare Scope py_scope.
Delimit Scope py_scope with py.
Notation "'let*' x ':=' e 'in' k" := (obind e (fun x => k))
  (at level 10, x name, e at level 100, k at level 200) : py_scope.
Local Open Scope py_scope.

(** ** Floats: IEEE 754 binary64, as CPython's [float] *)

Module PyFloat.

Definition prec : Z := 53.
Definition emax : Z := 1024.

Definition float := spec_float.

Definition mul : float -> float -> float := SFmul prec emax.
Definition div : float -> float -> float := SFdiv prec emax.

(** The double nearest to [m * 2^e] (round half to even). *)
Definition of_scaled (m e : Z) : float := binary_normalize prec emax m e false.

Definition is_zero (x : float) : bool :=
  match x with
  | S754_zero _ => true
  | _ => false
  end.

(** [float(n)] for a Python int: [OverflowError] when [n] is too large. *)
Definition of_int (n : Z) : outcome float :=
  match of_scaled n 0 with
  | S754_infinity _ => Raise OverflowError
  | f => Ok f
  end.

(** [int(x)]: truncation toward zero; NaN and the infinities raise. *)
Definition to_int (x : float) : outcome Z :=
  match x with
  | S754_zero _ => Ok 0
  | S754_finite s m e => Ok (cond_Zopp s (Z.shiftl (Z.pos m) e))
  | S754_infinity _ => Raise OverflowError
  | S754_nan => Raise ValueError
  end.

(** [n / c] with [n] an int and [c] a float. *)
Definition int_truediv (n : Z) (c : float) : outcome float :=
  let* x := of_int n in
  if is_zero c then Raise ZeroDivisionError else Ok (div x c).

(** [n * c] with [n] an int and [c] a float. *)
Definition int_mul (n : Z) (c : float) : outcome float :=
  let* x := of_int n in Ok (mul x c).

(** The literals [1.0], [10.0] and [0.1] of the source. *)
Definition one : float := Eval vm_compute in of_scaled 1 0.
Definition ten : float := Eval vm_compute in of_scaled 10 0.
Definition tenth : float := S754_finite false 7205759403792794 (-56).

(** [float_eq_dec]: floats are compared structurally (both operands are
    in canonical form after every operation above). *)
Definition eq_dec (x y : float) : {x = y} + {x <> y}.
Proof.
  decide equality; try apply Z.eq_dec; try apply Pos.eq_dec;
    apply Bool.bool_dec.
Defined.

End PyFloat.

Abbreviation float := PyFloat.float.

(** A Python number: the descriptors' numeric fields are annotated [float]
    but written as int or float literals, and are returned as written. *)
Inductive PyNum :=
  | PyInt (n : Z)
  | PyFloatV (f : float).

(** ** Bytes *)

Abbreviation bytes := (list byte).

Definition byte_to_Z (b : byte) : Z := Z.of_N (Byte.to_N b).

Definition byte_of_Z (n : Z) : byte :=
  match Byte.of_N (Z.to_N n) with
  | Some b => b
  | None => x00
  end.

(** [int.from_bytes(bs, "big")]. *)
Definition int_from_bytes (bs : bytes) : Z :=
  fold_left (fun acc b => acc * 256 + byte_to_Z b) bs 0.

Fixpoint big_endian (len : nat) (n : Z) : bytes :=
  match len with
  | O => []
  | S k => big_endian k (n / 256) ++ [byte_of_Z (n mod 256)]
  end.

(** [int.to_bytes(n, len, "big")]: unsigned, [OverflowError] when [n] is
    negative or does not fit. *)
Definition int_to_bytes (n : Z) (len : nat) : outcome bytes :=
  if n <? 0 then Raise OverflowError
  else if 256 ^ Z.of_nat len <=? n then Raise OverflowError
  else Ok (big_endian len n).

(** [bs[i]] on a bytes object, for a non-negative literal index. *)
Definition bytes_getitem (bs : bytes) (i : nat) : outcome Z :=
  match bs !! i with
  | Some b => Ok (byte_to_Z b)
  | None => Raise IndexError
  end.

(** [ba[i] = n] on a bytearray (CPython 3.11+: the value is converted
    before the index is checked). *)
Definition bytearray_setitem (ba : bytes) (i : nat) (n : Z) : outcome bytes :=
  if (n <? 0) || (255 <? n) then Raise ValueError
  else if (i <? length ba)%nat then Ok (<[i := byte_of_Z n]> ba)
  else Raise IndexError.

(* ===================================================================== *)
(** * Collaborators of the module *)
(* ===================================================================== *)

(** ** The datapoint store ([.tuya_ble]) *)

(** Modelled from the spec: the declaration of [TuyaBLEDataPointType] is
    not part of the platform file; a datapoint's type is an enum, of which
    the platform names [DT_VALUE] only. *)
Inductive TuyaBLEDataPointType :=
  | DT_RAW | DT_BOOL | DT_VALUE | DT_STRING | DT_ENUM | DT_BITMAP.

Global Instance TuyaBLEDataPointType_eq_dec : EqDecision TuyaBLEDataPointType.
Proof. solve_decision. Defined.

(** Modelled from the spec: a datapoint's value is an integer or a byte
    sequence. *)
Inductive DPValue :=
  | VInt (n : Z)
  | VBytes (bs : bytes).

(** Modelled from the spec: a datapoint is [{id, type, value}], owned by
    the store. *)
Record TuyaBLEDataPoint := {
  id : Z;
  type : TuyaBLEDataPointType;
  value : DPValue;
}.

Abbreviation TuyaBLEDataPoints := (gmap Z TuyaBLEDataPoint).

(** Modelled from the spec: [datapoints[dp_id]] is the store's
    [get(dp_id) -> Datapoint | absent]. *)
Definition datapoints_getitem (dps : TuyaBLEDataPoints) (dp_id : Z)
  : option TuyaBLEDataPoint := dps !! dp_id.

(** Modelled from the spec: [has_id(dp_id, type_filter)], the store reports
    the id present, with the matching type when a filter is given. *)
Definition has_id (dps : TuyaBLEDataPoints) (dp_id : Z)
    (dp_type : option TuyaBLEDataPointType) : bool :=
  match dps !! dp_id with
  | Some dp =>
      match dp_type with
      | Some t => bool_decide (type dp = t)
      | None => true
      end
  | None => false
  end.

(** Modelled from the spec: [get_or_create(dp_id, type, initial_value)]
    obtains the datapoint, creating it with the given type and value when
    it does not exist yet. *)
Definition get_or_create (dps : TuyaBLEDataPoints) (dp_id : Z)
    (t : TuyaBLEDataPointType) (v : DPValue)
  : TuyaBLEDataPoints * TuyaBLEDataPoint :=
  match dps !! dp_id with
  | Some dp => (dps, dp)
  | None =>
      let dp := {| id := dp_id; type := t; value := v |} in
      (<[dp_id := dp]> dps, dp)
  end.

(** A write scheduled with [hass.create_task(datapoint.set_value(v))]:
    fire-and-forget, applied to the store when the task runs. *)
Record Task := { task_dp : Z; task_value : DPValue }.

(** Modelled from the spec: [Datapoint.set_value(new_value)] replaces the
    value of the datapoint. *)
Definition run_task (dps : TuyaBLEDataPoints) (t : Task) : TuyaBLEDataPoints :=
  match dps !! task_dp t with
  | Some dp =>
      <[task_dp t := {| id := id dp; type := type dp; value := task_value t |}]> dps
  | None => dps
  end.

(** [datapoint.value == n] for an int literal [n]. *)
Definition value_eq_int (v : DPValue) (n : Z) : bool :=
  match v with
  | VInt z => z =? n
  | VBytes _ => false
  end.

(** [datapoint.value / c]. *)
Definition value_truediv (v : DPValue) (c : float) : outcome float :=
  match v with
  | VInt z => PyFloat.int_truediv z c
  | VBytes _ => Raise TypeError
  end.

(** ** Device and product ([.devices], [.tuya_ble]) *)

(** Modelled from the spec: the declaration of [TuyaBLEDevice] is not part
    of the platform file; a device carries its identity (address, display
    name, category, product id) and owns its datapoint store. *)
Record TuyaBLEDevice := {
  address : string;
  name : string;
  category : string;
  product_id : string;
  datapoints : TuyaBLEDataPoints;
}.

(** Modelled from the spec: the declarations of [TuyaBLEFingerbotInfo] and
    [TuyaBLEProductInfo] are not part of the platform file. The capability
    descriptor of a fingerbot product names the ids of its "mode" and
    "program" datapoints, the two fields the platform reads ([mode] and
    [program] in the source); the platform tests [program] for truth, so
    an id of 0 stands for a product without program datapoint. A product
    that is no fingerbot has no such descriptor. *)
Record TuyaBLEFingerbotInfo := {
  fb_mode : Z;
  fb_program : Z;
}.

Record TuyaBLEProductInfo := {
  fingerbot : option TuyaBLEFingerbotInfo;
}.

(** ** Host description of a number entity ([homeassistant]) *)

Inductive EntityCategory := CONFIG | DIAGNOSTIC.
Inductive NumberMode := AUTO | BOX | SLIDER.
Inductive NumberDeviceClass := WATER.
Inductive Unit :=
  | PERCENTAGE
  | CONCENTRATION_PARTS_PER_MILLION
  | UnitOfTime_SECONDS
  | UnitOfTime_MINUTES
  | UnitOfTemperature_CELSIUS
  | UnitOfVolume_MILLILITERS.

Record NumberEntityDescription := {
  key : string;
  desc_name : option string;
  icon : option string;
  device_class : option NumberDeviceClass;
  native_max_value : option PyNum;
  native_min_value : option PyNum;
  native_unit_of_measurement : option Unit;
  native_step : option PyNum;
  entity_category : option EntityCategory;
}.

(** [NumberEntityDescription(key=k)], every other field at its default. *)
Definition mk_description (k : string) : NumberEntityDescription := {|
  key := k;
  desc_name := None;
  icon := None;
  device_class := None;
  native_max_value := None;
  native_min_value := None;
  native_unit_of_measurement := None;
  native_step := None;
  entity_category := None;
|}.

(** Keyword arguments of the description constructors. *)
Definition with_name (s : string) (d : NumberEntityDescription) :=
  {| key := key d; desc_name := Some s; icon := icon d;
     device_class := device_class d;
     native_max_value := native_max_value d;
     native_min_value := native_min_value d;
     native_unit_of_measurement := native_unit_of_measurement d;
     native_step := native_step d; entity_category := entity_category d |}.
Definition with_icon (s : string) (d : NumberEntityDescription) :=
  {| key := key d; desc_name := desc_name d; icon := Some s;
     device_class := device_class d;
     native_max_value := native_max_value d;
     native_min_value := native_min_value d;
     native_unit_of_measurement := native_unit_of_measurement d;
     native_step := native_step d; entity_category := entity_category d |}.
Definition with_device_class (c : NumberDeviceClass) (d : NumberEntityDescription) :=
  {| key := key d; desc_name := desc_name d; icon := icon d;
     device_class := Some c;
     native_max_value := native_max_value d;
     native_min_value := native_min_value d;
     native_unit_of_measurement := native_unit_of_measurement d;
     native_step := native_step d; entity_category := entity_category d |}.
Definition with_max (x : PyNum) (d : NumberEntityDescription) :=
  {| key := key d; desc_name := desc_name d; icon := icon d;
     device_class := device_class d;
     native_max_value := Some x;
     native_min_value := native_min_value d;
     native_unit_of_measurement := native_unit_of_measurement d;
     native_step := native_step d; entity_category := entity_category d |}.
Definition with_min (x : PyNum) (d : NumberEntityDescription) :=
  {| key := key d; desc_name := desc_name d; icon := icon d;
     device_class := device_class d;
     native_max_value := native_max_value d;
     native_min_value := Some x;
     native_unit_of_measurement := native_unit_of_measurement d;
     native_step := native_step d; entity_category := entity_category d |}.
Definition with_unit (u : Unit) (d : NumberEntityDescription) :=
  {| key := key d; desc_name := desc_name d; icon := icon d;
     device_class := device_class d;
     native_max_value := native_max_value d;
     native_min_value := native_min_value d;
     native_unit_of_measurement := Some u;
     native_step := native_step d; entity_category := entity_category d |}.
Definition with_step (x : PyNum) (d : NumberEntityDescription) :=
  {| key := key d; desc_name := desc_name d; icon := icon d;
     device_class := device_class d;
     native_max_value := native_max_value d;
     native_min_value := native_min_value d;
     native_unit_of_measurement := native_unit_of_measurement d;
     native_step := Some x; entity_category := entity_category d |}.
Definition with_entity_category (c : EntityCategory) (d : NumberEntityDescription) :=
  {| key := key d; desc_name := desc_name d; icon := icon d;
     device_class := device_class d;
     native_max_value := native_max_value d;
     native_min_value := native_min_value d;
     native_unit_of_measurement := native_unit_of_measurement d;
     native_step := native_step d; entity_category := Some c |}.

(* ===================================================================== *)
(** * Control descriptors *)
(* ===================================================================== *)

(** The optional function fields of a descriptor hold one of the module's
    functions; a field is represented by the name of the function it holds
    and dispatched by [call_is_available], [call_getter] and [call_setter]
    below. *)
Inductive TuyaBLENumberIsAvailable :=
  | ref_is_fingerbot_in_program_mode
  | ref_is_fingerbot_not_in_program_mode
  | ref_is_fingerbot_in_push_mode
  | ref_is_fingerbot_repeat_count_available.

Inductive TuyaBLENumberGetter :=
  | ref_get_fingerbot_program_repeat_count
  | ref_get_fingerbot_program_position.

Inductive TuyaBLENumberSetter :=
  | ref_set_fingerbot_program_repeat_count
  | ref_set_fingerbot_program_position.

Record TuyaBLENumberMapping := {
  dp_id : Z;
  description : NumberEntityDescription;
  force_add : bool;
  dp_type : option TuyaBLEDataPointType;
  coefficient : float;
  is_available : option TuyaBLENumberIsAvailable;
  getter : option TuyaBLENumberGetter;
  setter : option TuyaBLENumberSetter;
  mode : NumberMode;
}.

(** [TuyaBLENumberMapping(dp_id=.., description=..)] with the dataclass
    defaults. *)
Definition mk_mapping (i : Z) (d : NumberEntityDescription)
  : TuyaBLENumberMapping := {|
  dp_id := i;
  description := d;
  force_add := true;
  dp_type := None;
  coefficient := PyFloat.one;
  is_available := None;
  getter := None;
  setter := None;
  mode := BOX;
|}.

Definition with_coefficient (c : float) (m : TuyaBLENumberMapping) :=
  {| dp_id := dp_id m; description := description m;
     force_add := force_add m; dp_type := dp_type m; coefficient := c;
     is_available := is_available m; getter := getter m;
     setter := setter m; mode := mode m |}.
Definition with_is_available (f : TuyaBLENumberIsAvailable) (m : TuyaBLENumberMapping) :=
  {| dp_id := dp_id m; description := description m;
     force_add := force_add m; dp_type := dp_type m;
     coefficient := coefficient m;
     is_available := Some f; getter := getter m;
     setter := setter m; mode := mode m |}.
Definition with_getter (f : TuyaBLENumberGetter) (m : TuyaBLENumberMapping) :=
  {| dp_id := dp_id m; description := description m;
     force_add := force_add m; dp_type := dp_type m;
     coefficient := coefficient m;
     is_available := is_available m; getter := Some f;
     setter := setter m; mode := mode m |}.
Definition with_setter (f : TuyaBLENumberSetter) (m : TuyaBLENumberMapping) :=
  {| dp_id := dp_id m; description := description m;
     force_add := force_add m; dp_type := dp_type m;
     coefficient := coefficient m;
     is_available := is_available m; getter := getter m;
     setter := Some f; mode := mode m |}.
Definition with_mode (x : NumberMode) (m : TuyaBLENumberMapping) :=
  {| dp_id := dp_id m; description := description m;
     force_add := force_add m; dp_type := dp_type m;
     coefficient := coefficient m;
     is_available := is_available m; getter := getter m;
     setter := setter m; mode := x |}.

(** The description subclasses, with their defaults. *)
Definition TuyaBLEDownPositionDescription : NumberEntityDescription :=
  with_entity_category CONFIG
    (with_step (PyInt 1)
      (with_unit PERCENTAGE
        (with_min (PyInt 51)
          (with_max (PyInt 100)
            (with_icon "mdi:arrow-down-bold" (mk_description "down_position")))))).

Definition TuyaBLEUpPositionDescription : NumberEntityDescription :=
  with_entity_category CONFIG
    (with_step (PyInt 1)
      (with_unit PERCENTAGE
        (with_min (PyInt 0)
          (with_max (PyInt 50)
            (with_icon "mdi:arrow-up-bold" (mk_description "up_position")))))).

Definition TuyaBLEHoldTimeDescription : NumberEntityDescription :=
  with_entity_category CONFIG
    (with_step (PyInt 1)
      (with_unit UnitOfTime_SECONDS
        (with_min (PyInt 0)
          (with_max (PyInt 10)
            (with_icon "mdi:timer" (mk_description "hold_time")))))).

(** [TuyaBLEHoldTimeMapping(dp_id=..)]. *)
Definition TuyaBLEHoldTimeMapping (i : Z) : TuyaBLENumberMapping :=
  with_is_available ref_is_fingerbot_in_push_mode
    (mk_mapping i TuyaBLEHoldTimeDescription).

(** The class for virtual entities: no [dp_id], [dp_type] or
    [coefficient] attribute. *)
Record TuyaBLEVirtualNumberMapping := {
  v_description : NumberEntityDescription;
  v_force_add : bool;
  v_is_available : option TuyaBLENumberIsAvailable;
  v_getter : option TuyaBLENumberGetter;
  v_setter : option TuyaBLENumberSetter;
  v_mode : NumberMode;
  default_value : PyNum;
}.

Definition mk_virtual_mapping (d : NumberEntityDescription) (dv : PyNum)
  : TuyaBLEVirtualNumberMapping := {|
  v_description := d;
  v_force_add := true;
  v_is_available := None;
  v_getter := None;
  v_setter := None;
  v_mode := BOX;
  default_value := dv;
|}.

(** An element of a registry list: the lists hold objects of both
    classes, and the code reads their attributes by name. *)
Inductive Mapping :=
  | Direct (m : TuyaBLENumberMapping)
  | Virtual (m : TuyaBLEVirtualNumberMapping).

Definition attr_description (m : Mapping) : NumberEntityDescription :=
  match m with Direct d => description d | Virtual v => v_description v end.
Definition attr_force_add (m : Mapping) : bool :=
  match m with Direct d => force_add d | Virtual v => v_force_add v end.
Definition attr_is_available (m : Mapping) : option TuyaBLENumberIsAvailable :=
  match m with Direct d => is_available d | Virtual v => v_is_available v end.
Definition attr_getter (m : Mapping) : option TuyaBLENumberGetter :=
  match m with Direct d => getter d | Virtual v => v_getter v end.
Definition attr_setter (m : Mapping) : option TuyaBLENumberSetter :=
  match m with Direct d => setter d | Virtual v => v_setter v end.
Definition attr_mode (m : Mapping) : NumberMode :=
  match m with Direct d => mode d | Virtual v => v_mode v end.
Definition attr_dp_id (m : Mapping) : outcome Z :=
  match m with
  | Direct d => Ok (dp_id d)
  | Virtual _ => Raise (AttributeError "dp_id")
  end.
Definition attr_dp_type (m : Mapping) : outcome (option TuyaBLEDataPointType) :=
  match m with
  | Direct d => Ok (dp_type d)
  | Virtual _ => Raise (AttributeError "dp_type")
  end.
Definition attr_coefficient (m : Mapping) : outcome float :=
  match m with
  | Direct d => Ok (coefficient d)
  | Virtual _ => Raise (AttributeError "coefficient")
  end.

Definition key_of (m : Mapping) : string := key (attr_description m).

Definition is_direct (m : Mapping) : bool :=
  match m with Direct _ => true | Virtual _ => false end.

Record TuyaBLECategoryNumberMapping := {
  products : option (gmap string (list Mapping));
  cat_mapping : option (list Mapping);
}.

(** ** Dict displays *)

(** A dict display [{k1: v1, k2: v2, ...}] inserts its items from left to
    right: a later item with an equal key replaces the earlier one. *)
Definition dict_display {V} (items : list (string * V)) : gmap string V :=
  fold_left (fun m kv => <[kv.1 := kv.2]> m) items ∅.

(** [dict.fromkeys(keys, v)], as the items it unpacks to: every key is
    bound to the same object [v]. *)
Definition dict_fromkeys {V} (keys : list string) (v : V) : list (string * V) :=
  map (fun k => (k, v)) keys.

(* ===================================================================== *)
(** * The mapping registry *)
(* ===================================================================== *)

(** Keyword arguments are applied left to right. *)
Local Notation "x <| f" := (f x) (at level 45, left associativity, only parsing).

Definition program_repeats_count_description : NumberEntityDescription :=
  mk_description "program_repeats_count"
    <| with_icon "mdi:repeat"
    <| with_max (PyInt 0xFFFE)
    <| with_min (PyInt 1)
    <| with_step (PyInt 1)
    <| with_entity_category CONFIG.

Definition program_idle_position_description : NumberEntityDescription :=
  mk_description "program_idle_position"
    <| with_icon "mdi:repeat"
    <| with_max (PyInt 100)
    <| with_min (PyInt 0)
    <| with_step (PyInt 1)
    <| with_unit PERCENTAGE
    <| with_entity_category CONFIG.

(** "sfkzq" / "nxquc5lb": Smart Water Valve. *)
Definition smart_water_valve : list Mapping := [
  Direct (mk_mapping 9
    (mk_description "time_use"
       <| with_icon "mdi:timer"
       <| with_max (PyInt 2592000)
       <| with_min (PyInt 0)
       <| with_unit UnitOfTime_SECONDS
       <| with_step (PyInt 1)
       <| with_entity_category CONFIG));
  Direct (mk_mapping 11
    (mk_description "countdown"
       <| with_icon "mdi:timer-outline"
       <| with_max (PyInt 86400)
       <| with_min (PyInt 0)
       <| with_unit UnitOfTime_SECONDS
       <| with_step (PyInt 1)
       <| with_entity_category CONFIG));
  Virtual (mk_virtual_mapping
    (mk_description "watering_duration"
       <| with_name "Watering Duration"
       <| with_icon "mdi:water-timer"
       <| with_max (PyInt 86400)
       <| with_min (PyInt 60)
       <| with_unit UnitOfTime_SECONDS
       <| with_step (PyInt 60)
       <| with_entity_category CONFIG)
    (PyInt 900))
].

(** "co2bj" / "59s19z5m": CO2 Detector. *)
Definition co2_detector : list Mapping := [
  Direct (mk_mapping 17
    (mk_description "brightness"
       <| with_icon "mdi:brightness-percent"
       <| with_max (PyInt 100)
       <| with_min (PyInt 0)
       <| with_unit PERCENTAGE
       <| with_step (PyInt 1)
       <| with_entity_category CONFIG)
    <| with_mode SLIDER);
  Direct (mk_mapping 26
    (mk_description "carbon_dioxide_alarm_level"
       <| with_icon "mdi:molecule-co2"
       <| with_max (PyInt 5000)
       <| with_min (PyInt 400)
       <| with_unit CONCENTRATION_PARTS_PER_MILLION
       <| with_step (PyInt 100)
       <| with_entity_category CONFIG))
].

(** "szjqr": CubeTouch 1s and II. *)
Definition cubetouch : list Mapping := [
  Direct (TuyaBLEHoldTimeMapping 3);
  Direct (mk_mapping 5 (TuyaBLEUpPositionDescription <| with_max (PyInt 100)));
  Direct (mk_mapping 6 (TuyaBLEDownPositionDescription <| with_min (PyInt 0)))
].

(** "szjqr": Fingerbot Plus. *)
Definition fingerbot_plus_szjqr : list Mapping := [
  Direct (mk_mapping 9 TuyaBLEDownPositionDescription
    <| with_is_available ref_is_fingerbot_not_in_program_mode);
  Direct (TuyaBLEHoldTimeMapping 10);
  Direct (mk_mapping 15 TuyaBLEUpPositionDescription
    <| with_is_available ref_is_fingerbot_not_in_program_mode);
  Direct (mk_mapping 121 program_repeats_count_description
    <| with_is_available ref_is_fingerbot_repeat_count_available
    <| with_getter ref_get_fingerbot_program_repeat_count
    <| with_setter ref_set_fingerbot_program_repeat_count);
  Direct (mk_mapping 121 program_idle_position_description
    <| with_is_available ref_is_fingerbot_in_program_mode
    <| with_getter ref_get_fingerbot_program_position
    <| with_setter ref_set_fingerbot_program_position)
].

(** "szjqr": Fingerbot. *)
Definition fingerbot_szjqr : list Mapping := [
  Direct (mk_mapping 9 TuyaBLEDownPositionDescription
    <| with_is_available ref_is_fingerbot_not_in_program_mode);
  Direct (mk_mapping 10
    (TuyaBLEHoldTimeDescription <| with_step (PyFloatV PyFloat.tenth))
    <| with_coefficient PyFloat.ten
    <| with_is_available ref_is_fingerbot_in_push_mode);
  Direct (mk_mapping 15 TuyaBLEUpPositionDescription
    <| with_is_available ref_is_fingerbot_not_in_program_mode)
].

(** "kg": Fingerbot Plus. *)
Definition fingerbot_plus_kg : list Mapping := [
  Direct (mk_mapping 102 TuyaBLEDownPositionDescription
    <| with_is_available ref_is_fingerbot_not_in_program_mode);
  Direct (TuyaBLEHoldTimeMapping 103);
  Direct (mk_mapping 106 TuyaBLEUpPositionDescription
    <| with_is_available ref_is_fingerbot_not_in_program_mode);
  Direct (mk_mapping 109 program_repeats_count_description
    <| with_is_available ref_is_fingerbot_repeat_count_available
    <| with_getter ref_get_fingerbot_program_repeat_count
    <| with_setter ref_set_fingerbot_program_repeat_count);
  Direct (mk_mapping 109 program_idle_position_description
    <| with_is_available ref_is_fingerbot_in_program_mode
    <| with_getter ref_get_fingerbot_program_position
    <| with_setter ref_set_fingerbot_program_position)
].

(** "wk": Thermostatic Radiator Valve. *)
Definition radiator_valve : list Mapping := [
  Direct (mk_mapping 27
    (mk_description "temperature_calibration"
       <| with_icon "mdi:thermometer-lines"
       <| with_max (PyInt 6)
       <| with_min (PyInt (-6))
       <| with_unit UnitOfTemperature_CELSIUS
       <| with_step (PyInt 1)
       <| with_entity_category CONFIG))
].

(** "wsdcg" / "ojzlzzsw": Soil moisture sensor. *)
Definition soil_moisture_sensor : list Mapping := [
  Direct (mk_mapping 17
    (mk_description "reporting_period"
       <| with_icon "mdi:timer"
       <| with_max (PyInt 120)
       <| with_min (PyInt 1)
       <| with_unit UnitOfTime_MINUTES
       <| with_step (PyInt 1)
       <| with_entity_category CONFIG))
].

(** "znhsb" / "cdlandip": Smart water bottle. *)
Definition smart_water_bottle : list Mapping := [
  Direct (mk_mapping 103
    (mk_description "recommended_water_intake"
       <| with_device_class WATER
       <| with_max (PyInt 5000)
       <| with_min (PyInt 0)
       <| with_unit UnitOfVolume_MILLILITERS
       <| with_step (PyInt 1)
       <| with_entity_category CONFIG))
].

Definition countdown_description (k : string) : NumberEntityDescription :=
  mk_description k
    <| with_icon "mdi:timer"
    <| with_max (PyInt 1440)
    <| with_min (PyInt 1)
    <| with_unit UnitOfTime_MINUTES
    <| with_step (PyInt 1).

(** "ggq" / "6pahkcau": Irrigation computer PARKSIDE PPB A1. *)
Definition irrigation_parkside : list Mapping := [
  Direct (mk_mapping 5 (countdown_description "countdown_duration"))
].

(** "ggq" / "hfgdqhho", first item: Irrigation computer SGW08. *)
Definition irrigation_sgw08 : list Mapping := [
  Direct (mk_mapping 106
    (mk_description "countdown_duration_1"
       <| with_name "CH1 Countdown"
       <| with_icon "mdi:timer"
       <| with_max (PyInt 1440)
       <| with_min (PyInt 1)
       <| with_unit UnitOfTime_MINUTES
       <| with_step (PyInt 1)));
  Direct (mk_mapping 103
    (mk_description "countdown_duration_2"
       <| with_name "CH2 Countdown"
       <| with_icon "mdi:timer"
       <| with_max (PyInt 1440)
       <| with_min (PyInt 1)
       <| with_unit UnitOfTime_MINUTES
       <| with_step (PyInt 1)))
].

(** "ggq" / "hfgdqhho", second item: Irrigation computer SGW02. *)
Definition irrigation_sgw02 : list Mapping := [
  Direct (mk_mapping 106 (countdown_description "countdown_duration_z1"));
  Direct (mk_mapping 103 (countdown_description "countdown_duration_z2"))
].

(** The items of each category's [products] display, in source order. *)
Definition sfkzq_items : list (string * list Mapping) :=
  [("nxquc5lb", smart_water_valve)].
Definition co2bj_items : list (string * list Mapping) :=
  [("59s19z5m", co2_detector)].
Definition szjqr_items : list (string * list Mapping) :=
  dict_fromkeys ["3yqdo5yt"; "xhf790if"] cubetouch
  ++ dict_fromkeys ["blliqpsj"; "ndvkgsrm"; "yiihr7zh"; "neq16kgd"]
       fingerbot_plus_szjqr
  ++ dict_fromkeys ["ltak7e1p"; "y6kttvd6"; "yrnk7mnn"; "nvr2rocq";
                    "bnt7wajf"; "rvdceqjh"; "5xhbk964"] fingerbot_szjqr.
Definition kg_items : list (string * list Mapping) :=
  dict_fromkeys ["mknd4lci"; "riecov42"] fingerbot_plus_kg.
Definition wk_items : list (string * list Mapping) :=
  dict_fromkeys ["drlajpqc"; "nhj2j7su"; "zmachryv"] radiator_valve.
Definition wsdcg_items : list (string * list Mapping) :=
  [("ojzlzzsw", soil_moisture_sensor)].
Definition znhsb_items : list (string * list Mapping) :=
  [("cdlandip", smart_water_bottle)].
Definition ggq_items : list (string * list Mapping) :=
  [("6pahkcau", irrigation_parkside);
   ("hfgdqhho", irrigation_sgw08);
   ("hfgdqhho", irrigation_sgw02)].

(** [TuyaBLECategoryNumberMapping(products={...})]: no category of the
    registry passes [mapping=]. *)
Definition category_of (items : list (string * list Mapping))
  : TuyaBLECategoryNumberMapping :=
  {| products := Some (dict_display items); cat_mapping := None |}.

Definition mapping_items : list (string * TuyaBLECategoryNumberMapping) :=
  [("sfkzq", category_of sfkzq_items);
   ("co2bj", category_of co2bj_items);
   ("szjqr", category_of szjqr_items);
   ("kg", category_of kg_items);
   ("wk", category_of wk_items);
   ("wsdcg", category_of wsdcg_items);
   ("znhsb", category_of znhsb_items);
   ("ggq", category_of ggq_items)].

Definition mapping : gmap string TuyaBLECategoryNumberMapping :=
  dict_display mapping_items.

(** [get_mapping_by_device], over the registry it reads. *)
Definition resolve (registry : gmap string TuyaBLECategoryNumberMapping)
    (device : TuyaBLEDevice) : list Mapping :=
  match registry !! category device with
  | Some cat =>
      match products cat with
      | Some prods =>
          match prods !! product_id device with
          | Some product_mapping => product_mapping
          | None =>
              match cat_mapping cat with
              | Some fallback => fallback
              | None => []
              end
          end
      | None => []
      end
  | None => []
  end.

Definition get_mapping_by_device (device : TuyaBLEDevice) : list Mapping :=
  resolve mapping device.

(* ===================================================================== *)
(** * The datapoint-bound adapter and its predicates and accessors *)
(* ===================================================================== *)

(** A [TuyaBLENumber] instance: what [__init__] stores. [_device] is the
    device object, whose [datapoints] the methods read. *)
Record TuyaBLENumber := {
  _device : TuyaBLEDevice;
  _product : TuyaBLEProductInfo;
  _mapping : Mapping;
  _attr_mode : NumberMode;
}.

(** [TuyaBLENumber(hass, coordinator, device, product, mapping)]. *)
Definition TuyaBLENumber_init (device : TuyaBLEDevice)
    (product : TuyaBLEProductInfo) (m : Mapping) : TuyaBLENumber :=
  {| _device := device; _product := product; _mapping := m;
     _attr_mode := attr_mode m |}.

(** Truth value of an int. *)
Definition truthy (n : Z) : bool := negb (n =? 0).

Definition is_fingerbot_in_program_mode (self : TuyaBLENumber)
    (product : TuyaBLEProductInfo) : bool :=
  match fingerbot product with
  | Some fb =>
      match datapoints_getitem (datapoints (_device self)) (fb_mode fb) with
      | Some datapoint => value_eq_int (value datapoint) 2
      | None => true
      end
  | None => true
  end.

Definition is_fingerbot_not_in_program_mode (self : TuyaBLENumber)
    (product : TuyaBLEProductInfo) : bool :=
  match fingerbot product with
  | Some fb =>
      match datapoints_getitem (datapoints (_device self)) (fb_mode fb) with
      | Some datapoint => negb (value_eq_int (value datapoint) 2)
      | None => true
      end
  | None => true
  end.

Definition is_fingerbot_in_push_mode (self : TuyaBLENumber)
    (product : TuyaBLEProductInfo) : bool :=
  match fingerbot product with
  | Some fb =>
      match datapoints_getitem (datapoints (_device self)) (fb_mode fb) with
      | Some datapoint => value_eq_int (value datapoint) 0
      | None => true
      end
  | None => true
  end.

Definition is_fingerbot_repeat_count_available (self : TuyaBLENumber)
    (product : TuyaBLEProductInfo) : bool :=
  match fingerbot product with
  | Some fb =>
      if truthy (fb_program fb) then
        let result :=
          match datapoints_getitem (datapoints (_device self)) (fb_mode fb) with
          | Some datapoint => value_eq_int (value datapoint) 2
          | None => true
          end in
        if result then
          match datapoints_getitem (datapoints (_device self)) (fb_program fb) with
          | Some datapoint =>
              match value datapoint with
              | VBytes bs =>
                  let repeat_count := int_from_bytes (take 2 bs) in
                  negb (repeat_count =? 0xFFFF)
              | VInt _ => result
              end
          | None => result
          end
        else result
      else true
  | None => true
  end.

Definition get_fingerbot_program_repeat_count (self : TuyaBLENumber)
    (product : TuyaBLEProductInfo) : outcome (option PyNum) :=
  match fingerbot product with
  | Some fb =>
      if truthy (fb_program fb) then
        match datapoints_getitem (datapoints (_device self)) (fb_program fb) with
        | Some datapoint =>
            match value datapoint with
            | VBytes bs =>
                let repeat_count := int_from_bytes (take 2 bs) in
                let* r := PyFloat.int_mul repeat_count PyFloat.one in
                Ok (Some (PyFloatV r))
            | VInt _ => Ok None
            end
        | None => Ok None
        end
      else Ok None
  | None => Ok None
  end.

Definition set_fingerbot_program_repeat_count (self : TuyaBLENumber)
    (product : TuyaBLEProductInfo) (v : float) : outcome (list Task) :=
  match fingerbot product with
  | Some fb =>
      if truthy (fb_program fb) then
        match datapoints_getitem (datapoints (_device self)) (fb_program fb) with
        | Some datapoint =>
            match value datapoint with
            | VBytes bs =>
                let* n := PyFloat.to_int v in
                let* head := int_to_bytes n 2 in
                let new_value := head ++ drop 2 bs in
                Ok [{| task_dp := fb_program fb; task_value := VBytes new_value |}]
            | VInt _ => Ok []
            end
        | None => Ok []
        end
      else Ok []
  | None => Ok []
  end.

Definition get_fingerbot_program_position (self : TuyaBLENumber)
    (product : TuyaBLEProductInfo) : outcome (option PyNum) :=
  match fingerbot product with
  | Some fb =>
      if truthy (fb_program fb) then
        match datapoints_getitem (datapoints (_device self)) (fb_program fb) with
        | Some datapoint =>
            match value datapoint with
            | VBytes bs =>
                let* b := bytes_getitem bs 2 in
                let* r := PyFloat.int_mul b PyFloat.one in
                Ok (Some (PyFloatV r))
            | VInt _ => Ok None
            end
        | None => Ok None
        end
      else Ok None
  | None => Ok None
  end.

Definition set_fingerbot_program_position (self : TuyaBLENumber)
    (product : TuyaBLEProductInfo) (v : float) : outcome (list Task) :=
  match fingerbot product with
  | Some fb =>
      if truthy (fb_program fb) then
        match datapoints_getitem (datapoints (_device self)) (fb_program fb) with
        | Some datapoint =>
            match value datapoint with
            | VBytes bs =>
                let new_value := bs in
                let* n := PyFloat.to_int v in
                let* new_value := bytearray_setitem new_value 2 n in
                Ok [{| task_dp := fb_program fb; task_value := VBytes new_value |}]
            | VInt _ => Ok []
            end
        | None => Ok []
        end
      else Ok []
  | None => Ok []
  end.

(** Calls through the function fields. *)
Definition call_is_available (f : TuyaBLENumberIsAvailable)
  : TuyaBLENumber -> TuyaBLEProductInfo -> bool :=
  match f with
  | ref_is_fingerbot_in_program_mode => is_fingerbot_in_program_mode
  | ref_is_fingerbot_not_in_program_mode => is_fingerbot_not_in_program_mode
  | ref_is_fingerbot_in_push_mode => is_fingerbot_in_push_mode
  | ref_is_fingerbot_repeat_count_available => is_fingerbot_repeat_count_available
  end.

Definition call_getter (f : TuyaBLENumberGetter)
  : TuyaBLENumber -> TuyaBLEProductInfo -> outcome (option PyNum) :=
  match f with
  | ref_get_fingerbot_program_repeat_count => get_fingerbot_program_repeat_count
  | ref_get_fingerbot_program_position => get_fingerbot_program_position
  end.

Definition call_setter (f : TuyaBLENumberSetter)
  : TuyaBLENumber -> TuyaBLEProductInfo -> float -> outcome (list Task) :=
  match f with
  | ref_set_fingerbot_program_repeat_count => set_fingerbot_program_repeat_count
  | ref_set_fingerbot_program_position => set_fingerbot_program_position
  end.

(** [TuyaBLENumber.native_value]. *)
Definition native_value (self : TuyaBLENumber) : outcome (option PyNum) :=
  match attr_getter (_mapping self) with
  | Some g => call_getter g self (_product self)
  | None =>
      let* i := attr_dp_id (_mapping self) in
      match datapoints_getitem (datapoints (_device self)) i with
      | Some datapoint =>
          let* c := attr_coefficient (_mapping self) in
          let* r := value_truediv (value datapoint) c in
          Ok (Some (PyFloatV r))
      | None => Ok (native_min_value (attr_description (_mapping self)))
      end
  end.

(** [TuyaBLENumber.set_native_value]: the datapoint store after the call
    and the writes it scheduled. *)
Definition set_native_value (self : TuyaBLENumber) (v : float)
  : outcome (TuyaBLEDataPoints * list Task) :=
  match attr_setter (_mapping self) with
  | Some s =>
      let* tasks := call_setter s self (_product self) v in
      Ok (datapoints (_device self), tasks)
  | None =>
      let* c := attr_coefficient (_mapping self) in
      let* int_value := PyFloat.to_int (PyFloat.mul v c) in
      let* i := attr_dp_id (_mapping self) in
      let '(dps, datapoint) :=
        get_or_create (datapoints (_device self)) i DT_VALUE (VInt int_value) in
      Ok (dps, [{| task_dp := i; task_value := VInt int_value |}])
  end.

(** [TuyaBLENumber.available], given the base availability of the host
    entity ([super().available]). *)
Definition available (self : TuyaBLENumber) (base : bool) : bool :=
  if base then
    match attr_is_available (_mapping self) with
    | Some p => call_is_available p self (_product self)
    | None => base
    end
  else base.

(* ===================================================================== *)
(** * Names bound at module level *)
(* ===================================================================== *)

(** Every name the module binds at its top level, by import, assignment,
    [def] or [class], in source order. A name that is read inside a
    function and is neither local nor in this list (nor a builtin) raises
    [NameError] when the function runs. *)
Definition module_globals : list string := [
  "annotations"; "dataclass"; "field"; "logging"; "Any"; "Callable";
  "NumberEntityDescription"; "NumberEntity"; "RestoreNumber";
  "NumberDeviceClass"; "NumberMode"; "ConfigEntry";
  "CONCENTRATION_PARTS_PER_MILLION"; "PERCENTAGE"; "UnitOfVolume";
  "UnitOfTemperature"; "UnitOfTime"; "HomeAssistant"; "callback";
  "EntityCategory"; "AddEntitiesCallback"; "RestoreEntity";
  "DataUpdateCoordinator"; "DOMAIN"; "TuyaBLEData"; "TuyaBLEEntity";
  "TuyaBLEProductInfo"; "TuyaBLEDataPointType"; "TuyaBLEDevice"; "_LOGGER";
  "TuyaBLENumberGetter"; "TuyaBLENumberIsAvailable"; "TuyaBLENumberSetter";
  "TuyaBLENumberMapping"; "is_fingerbot_in_program_mode";
  "is_fingerbot_not_in_program_mode"; "is_fingerbot_in_push_mode";
  "is_fingerbot_repeat_count_available";
  "get_fingerbot_program_repeat_count"; "set_fingerbot_program_repeat_count";
  "get_fingerbot_program_position"; "set_fingerbot_program_position";
  "TuyaBLEDownPositionDescription"; "TuyaBLEUpPositionDescription";
  "TuyaBLEHoldTimeDescription"; "TuyaBLEHoldTimeMapping";
  "TuyaBLECategoryNumberMapping"; "TuyaBLEVirtualNumberMapping"; "mapping";
  "get_mapping_by_device"; "TuyaBLENumber"; "TuyaBLEVirtualNumber";
  "async_setup_entry"
].

(** Reading the global [name]. *)
Definition load_global (name : string) : outcome unit :=
  if bool_decide (name ∈ module_globals) then Ok tt
  else Raise (NameError name).

(* ===================================================================== *)
(** * The virtual, persisted adapter *)
(* ===================================================================== *)

(** What a file of the storage directory holds, as far as the adapter can
    tell: a JSON object with a number under ["value"], or anything else
    (no JSON, no object, no ["value"] key, or a value [float] rejects with
    [ValueError] or [TypeError]). *)
Inductive FileContent :=
  | ValueRecord (x : PyNum)
  | OtherContent.

(** The host side of a virtual entity: the last state the host kept for
    it, the state it last published, the storage directory, whether that
    directory can be written, and the warnings logged. *)
Record Host := {
  last_state : option string;
  published : option PyNum;
  files : gmap string FileContent;
  writable : bool;
  warnings : list string;
}.

Record TuyaBLEVirtualNumber := {
  vn_device : TuyaBLEDevice;
  vn_mapping : TuyaBLEVirtualNumberMapping;
  _attr_native_value : PyNum;
  _attr_unique_id : string;
}.

(** [TuyaBLEVirtualNumber(hass, coordinator, device, product, mapping)]. *)
Definition TuyaBLEVirtualNumber_init (device : TuyaBLEDevice)
    (m : TuyaBLEVirtualNumberMapping) : TuyaBLEVirtualNumber :=
  {| vn_device := device;
     vn_mapping := m;
     _attr_native_value := default_value m;
     _attr_unique_id := address device +:+ "_" +:+ key (v_description m) |}.

Definition set_attr_native_value (self : TuyaBLEVirtualNumber) (x : PyNum)
  : TuyaBLEVirtualNumber :=
  {| vn_device := vn_device self; vn_mapping := vn_mapping self;
     _attr_native_value := x; _attr_unique_id := _attr_unique_id self |}.

(** [NumberEntity.native_value] of the host: the stored attribute. *)
Definition virtual_native_value (self : TuyaBLEVirtualNumber) : PyNum :=
  _attr_native_value self.

(** The path of the entity's record below [hass.config.path(".storage")]. *)
Definition storage_file (self : TuyaBLEVirtualNumber) : string :=
  ".storage/tuya_ble_virtual_" +:+ _attr_unique_id self +:+ ".json".

(** [float(x)] for a number. *)
Definition float_of_num (x : PyNum) : outcome float :=
  match x with
  | PyInt n => PyFloat.of_int n
  | PyFloatV f => Ok f
  end.

Section VirtualNumber.

(** [float(s)] for a string: the parsed double, or [None] where Python
    raises [ValueError]. *)
Variable float_of_str : string -> option float.

(** The first half of [async_added_to_hass]: restore from the host's
    last state. *)
Definition restore_last_state (self : TuyaBLEVirtualNumber)
    (st : option string) : TuyaBLEVirtualNumber :=
  match st with
  | Some s =>
      if bool_decide (s = "unknown") || bool_decide (s = "unavailable")
      then self
      else
        match float_of_str s with
        | Some f => set_attr_native_value self (PyFloatV f)
        | None => set_attr_native_value self (default_value (vn_mapping self))
        end
  | None => self
  end.

(** [async_added_to_hass]: the entity and host after the call, and how
    the call ended. The names [os] and [json] are read as globals. *)
Definition async_added_to_hass (self : TuyaBLEVirtualNumber) (h : Host)
  : TuyaBLEVirtualNumber * Host * outcome unit :=
  let self := restore_last_state self (last_state h) in
  match load_global "os" with
  | Raise e => (self, h, Raise e)
  | Ok _ =>
      (* os.makedirs, os.path.join, os.path.exists *)
      match files h !! storage_file self with
      | None => (self, h, Ok tt)
      | Some content =>
          match load_global "json" with
          | Raise e => (self, h, Raise e)
          | Ok _ =>
              match content with
              | ValueRecord x =>
                  match float_of_num x with
                  | Ok f => (set_attr_native_value self (PyFloatV f), h, Ok tt)
                  | Raise e => (self, h, Raise e)
                  end
              | OtherContent => (self, h, Ok tt)
              end
          end
      end
  end.

(** [async_set_native_value]. *)
Definition async_set_native_value (self : TuyaBLEVirtualNumber) (h : Host)
    (v : float) : TuyaBLEVirtualNumber * Host * outcome unit :=
  let self := set_attr_native_value self (PyFloatV v) in
  let h := {| last_state := last_state h;
              published := Some (_attr_native_value self);
              files := files h; writable := writable h;
              warnings := warnings h |} in
  match load_global "os" with
  | Raise e => (self, h, Raise e)
  | Ok _ =>
      if writable h then
        (* open(storage_file, "w") truncates, json.dump writes *)
        match load_global "json" with
        | Raise e =>
            (self,
             {| last_state := last_state h; published := published h;
                files := <[storage_file self := OtherContent]> (files h);
                writable := writable h; warnings := warnings h |},
             Raise e)
        | Ok _ =>
            (self,
             {| last_state := last_state h; published := published h;
                files := <[storage_file self := ValueRecord (PyFloatV v)]> (files h);
                writable := writable h; warnings := warnings h |},
             Ok tt)
        end
      else
        (self,
         {| last_state := last_state h; published := published h;
            files := files h; writable := writable h;
            warnings := warnings h ++
              ["Failed to save virtual number value to " +:+ storage_file self] |},
         Ok tt)
  end.

End VirtualNumber.

(* ===================================================================== *)
(** * Platform setup *)
(* ===================================================================== *)

Record TuyaBLEData := {
  device : TuyaBLEDevice;
  product : TuyaBLEProductInfo;
}.

(** The entity objects the platform can construct: one constructor per
    adapter class. *)
Inductive Entity :=
  | NumberEntity_ (e : TuyaBLENumber)
  | VirtualNumberEntity_ (e : TuyaBLEVirtualNumber).

(** The loop of [async_setup_entry] over the resolved descriptors. *)
Fixpoint setup_entities (data : TuyaBLEData) (mappings : list Mapping)
    (entities : list Entity) : outcome (list Entity) :=
  match mappings with
  | [] => Ok entities
  | m :: rest =>
      let* add :=
        if attr_force_add m then Ok true
        else
          let* i := attr_dp_id m in
          let* t := attr_dp_type m in
          Ok (has_id (datapoints (device data)) i t) in
      if add then
        setup_entities data rest
          (entities ++ [NumberEntity_ (TuyaBLENumber_init (device data) (product data) m)])
      else setup_entities data rest entities
  end.

(** [async_setup_entry]: the entities handed to [async_add_entities]. *)
Definition async_setup_entry (data : TuyaBLEData) : outcome (list Entity) :=
  let mappings := get_mapping_by_device (device data) in
  setup_entities data mappings [].

(* ===================================================================== *)
(** * Example devices *)
(* ===================================================================== *)

Definition no_datapoints : TuyaBLEDataPoints := ∅.

Definition mk_device (cat pid : string) (dps : TuyaBLEDataPoints)
  : TuyaBLEDevice :=
  {| address := "DC:23:4D:00:00:01"; name := "device";
     category := cat; product_id := pid; datapoints := dps |}.

(** A Fingerbot Plus: mode on datapoint 8, program on datapoint 121. *)
Definition fingerbot_plus_info : TuyaBLEFingerbotInfo :=
  {| fb_mode := 8; fb_program := 121 |}.
Definition fingerbot_plus_product : TuyaBLEProductInfo :=
  {| fingerbot := Some fingerbot_plus_info |}.
Definition plain_product : TuyaBLEProductInfo := {| fingerbot := None |}.

Definition int_datapoint (i n : Z) : TuyaBLEDataPoint :=
  {| id := i; type := DT_VALUE; value := VInt n |}.
Definition raw_datapoint (i : Z) (bs : bytes) : TuyaBLEDataPoint :=
  {| id := i; type := DT_RAW; value := VBytes bs |}.

(** The store of a Fingerbot Plus in mode [m] with program payload [bs]. *)
Definition fingerbot_store (m : Z) (bs : bytes) : TuyaBLEDataPoints :=
  <[121 := raw_datapoint 121 bs]> (<[8 := int_datapoint 8 m]> ∅).

Definition fingerbot_entity (dps : TuyaBLEDataPoints) (m : Mapping)
  : TuyaBLENumber :=
  TuyaBLENumber_init (mk_device "szjqr" "blliqpsj" dps) fingerbot_plus_product m.

Definition repeat_count_mapping : Mapping :=
  Direct (mk_mapping 121 program_repeats_count_description
    <| with_is_available ref_is_fingerbot_repeat_count_available
    <| with_getter ref_get_fingerbot_program_repeat_count
    <| with_setter ref_set_fingerbot_program_repeat_count).

Definition idle_position_mapping : Mapping :=
  Direct (mk_mapping 121 program_idle_position_description
    <| with_is_available ref_is_fingerbot_in_program_mode
    <| with_getter ref_get_fingerbot_program_position
    <| with_setter ref_set_fingerbot_program_position).

(** The hold-time control of a Fingerbot: tenths of a second on
    datapoint 10. *)
Definition hold_time_mapping : TuyaBLENumberMapping :=
  mk_mapping 10
    (TuyaBLEHoldTimeDescription <| with_step (PyFloatV PyFloat.tenth))
    <| with_coefficient PyFloat.ten
    <| with_is_available ref_is_fingerbot_in_push_mode.

Definition hold_time_entity (dps : TuyaBLEDataPoints) : TuyaBLENumber :=
  TuyaBLENumber_init (mk_device "szjqr" "ltak7e1p" dps)
    {| fingerbot := Some {| fb_mode := 8; fb_program := 0 |} |}
    (Direct hold_time_mapping).

(** The entity whose device holds [dps] instead. *)
Definition with_datapoints (self : TuyaBLENumber) (dps : TuyaBLEDataPoints)
  : TuyaBLENumber :=
  {| _device := {| address := address (_device self);
                   name := name (_device self);
                   category := category (_device self);
                   product_id := product_id (_device self);
                   datapoints := dps |};
     _product := _product self;
     _mapping := _mapping self;
     _attr_mode := _attr_mode self |}.

(** The entity once the scheduled writes have run. *)
Definition after_tasks (self : TuyaBLENumber) (ts : list Task) : TuyaBLENumber :=
  with_datapoints self (fold_left run_task ts (datapoints (_device self))).

(** A registry with one category that has a fallback list, and one whose
    product map is missing. *)
Definition fallback_registry : gmap string TuyaBLECategoryNumberMapping :=
  dict_display
    [("ggq", {| products := Some (dict_display [("6pahkcau", irrigation_parkside)]);
                cat_mapping := Some irrigation_sgw02 |});
     ("wk", {| products := None; cat_mapping := Some radiator_valve |})].

(** The smart water valve and the virtual descriptor of its list. *)
Definition watering_duration_mapping : TuyaBLEVirtualNumberMapping :=
  mk_virtual_mapping
    (mk_description "watering_duration"
       <| with_name "Watering Duration"
       <| with_icon "mdi:water-timer"
       <| with_max (PyInt 86400)
       <| with_min (PyInt 60)
       <| with_unit UnitOfTime_SECONDS
       <| with_step (PyInt 60)
       <| with_entity_category CONFIG)
    (PyInt 900).

Definition water_valve_data : TuyaBLEData :=
  {| device := mk_device "sfkzq" "nxquc5lb" no_datapoints;
     product := plain_product |}.

(** A host that kept nothing for the entity. *)
Definition fresh_host : Host :=
  {| last_state := None; published := None; files := ∅;
     writable := true; warnings := [] |}.

(** The host after a restart in which only the storage directory
    survived. *)
Definition restart (h : Host) : Host :=
  {| last_state := None; published := None; files := files h;
     writable := writable h; warnings := [] |}.

(* ===================================================================== *)
(** * Auxiliary definitions for the proofs *)
(* ===================================================================== *)

(** [round(x)] of a float: the nearest integer, ties to the even one. This
    is the rounding the specification words the setter with; the code does
    not call it. *)
Definition spec_round (x : float) : outcome Z :=
  match x with
  | S754_zero _ => Ok 0
  | S754_infinity _ => Raise OverflowError
  | S754_nan => Raise ValueError
  | S754_finite s m e =>
      if 0 <=? e then Ok (cond_Zopp s (Z.shiftl (Z.pos m) e))
      else
        let d := 2 ^ (- e) in
        let q := Z.pos m / d in
        let r := Z.pos m mod d in
        let up :=
          match 2 * r ?= d with
          | Gt => true
          | Eq => Z.odd q
          | Lt => false
          end in
        Ok (cond_Zopp s (if up then q + 1 else q))
  end.

(** The setter as the specification words it: the written integer is
    [round(v * coefficient)]. *)
Definition spec_written_value (m : TuyaBLENumberMapping) (v : float) : outcome Z :=
  spec_round (PyFloat.mul v (coefficient m)).

(** The doubles [0.375] and [2.5]. *)
Definition float_0375 : float := Eval vm_compute in PyFloat.of_scaled 3 (-3).
Definition float_2_5 : float := Eval vm_compute in PyFloat.of_scaled 5 (-1).

(** The doubles [37.0] and [1000.0]. *)
Definition float_37 : float := Eval vm_compute in PyFloat.of_scaled 37 0.
Definition float_1000 : float := Eval vm_compute in PyFloat.of_scaled 1000 0.

(** A category as the registry writes them: a product map, and no
    category-level list. *)
Definition products_only (cat : TuyaBLECategoryNumberMapping) : bool :=
  match products cat, cat_mapping cat with
  | Some _, None => true
  | _, _ => false
  end.

(** The double [120.0]. *)
Definition float_120 : float := Eval vm_compute in PyFloat.of_scaled 120 0.

(** The adapter [async_setup_entry] builds for a descriptor. *)
Definition number_entity (data : TuyaBLEData) (m : Mapping) : Entity :=
  NumberEntity_ (TuyaBLENumber_init (device data) (product data) m).

Definition is_number_entity (e : Entity) : bool :=
  match e with NumberEntity_ _ => true | VirtualNumberEntity_ _ => false end.

(** A descriptor the registry may hand out: added unconditionally, not
    under a key of the replaced "hfgdqhho" list, and with a minimum if it
    is a direct one. *)
Definition registry_entry_ok (m : Mapping) : bool :=
  attr_force_add m
  && negb (String.eqb (key_of m) "countdown_duration_1")
  && negb (String.eqb (key_of m) "countdown_duration_2")
  && (negb (is_direct m)
      || match native_min_value (attr_description m) with
         | Some _ => true
         | None => false
         end).

(** [check_bits n f p]: [f] holds on the [2^n] integers from [p * 2^n]. *)
Fixpoint check_bits (n : nat) (f : Z -> bool) (p : Z) : bool :=
  match n with
  | O => f p
  | S k => check_bits k f (2 * p) && check_bits k f (2 * p + 1)
  end.

(** An integer survives the trip through [float]: [float(v)] is exact,
    [int] gives [v] back, and multiplying by [1.0] changes nothing. *)
Definition float_exact (v : Z) : bool :=
  match PyFloat.of_int v with
  | Ok f =>
      match PyFloat.to_int f with
      | Ok n => n =? v
      | Raise _ => false
      end
      && (if PyFloat.eq_dec (PyFloat.mul f PyFloat.one) f then true else false)
  | Raise _ => false
  end.

(** Every list a lookup can return from [registry]. *)
Definition reachable_lists (registry : gmap string TuyaBLECategoryNumberMapping)
  : list (list Mapping) :=
  '(_, cat) ← map_to_list registry;
  match products cat with
  | Some prods =>
      (map_to_list prods).*2
      ++ match cat_mapping cat with Some l => [l] | None => [] end
  | None => []
  end.

(* ===================================================================== *)
(** * Auxiliary definitions for the further properties *)
(* ===================================================================== *)

(** The value [k / c] survives the setter's scaling: [float(k)] exists and
    [int((k / c) * c)] is [k] again. *)
Definition scaled_exact (c : float) (k : Z) : bool :=
  match PyFloat.int_truediv k c with
  | Ok v =>
      match PyFloat.to_int (PyFloat.mul v c) with
      | Ok n => n =? k
      | Raise _ => false
      end
  | Raise _ => false
  end.

(** The test of [async_setup_entry] on a descriptor that has the
    attributes it reads. *)
Definition selected (data : TuyaBLEData) (m : Mapping) : bool :=
  attr_force_add m
  || match m with
     | Direct d => has_id (datapoints (device data)) (dp_id d) (dp_type d)
     | Virtual _ => false
     end.

(** A descriptor on which the test of [async_setup_entry] cannot fail. *)
Definition testable (m : Mapping) : bool := attr_force_add m || is_direct m.

(** The lists of the registry for the fingerbot family. *)
Definition fingerbot_lists : list Mapping :=
  fingerbot_plus_szjqr ++ fingerbot_plus_kg ++ fingerbot_szjqr.

Definition num_leb (x y : PyNum) : bool :=
  match x, y with
  | PyInt a, PyInt b => a <=? b
  | _, _ => false
  end.

(** A descriptor as the registry writes them: a direct one scales by 1.0
    or 10.0, has an integer range with minimum at most maximum, has both a
    custom getter and setter or neither, and filters on no datapoint
    type; a virtual one has no custom accessor. *)
Definition descriptor_well_formed (m : Mapping) : bool :=
  match m with
  | Direct d =>
      ((if PyFloat.eq_dec (coefficient d) PyFloat.one then true else false)
       || (if PyFloat.eq_dec (coefficient d) PyFloat.ten then true else false))
      && match native_min_value (description d), native_max_value (description d) with
         | Some lo, Some hi => num_leb lo hi
         | _, _ => false
         end
      && match getter d, setter d with
         | Some _, Some _ | None, None => true
         | _, _ => false
         end
      && match dp_type d with None => true | Some _ => false end
  | Virtual v =>
      match v_getter v, v_setter v with
      | None, None => true
      | _, _ => false
      end
  end.

(** The keys of a list are pairwise distinct. *)
Definition keys_distinct (l : list Mapping) : bool :=
  bool_decide (NoDup (map key_of l)).

(** The repeat count a byte payload decodes to. *)
Definition decoded_repeat_count (bs : bytes) : Z :=
  match bs with
  | [] => 0
  | [a] => byte_to_Z a
  | a :: b :: _ => 256 * byte_to_Z a + byte_to_Z b
  end.

(** A second descriptor for a virtual entity of the water valve. *)
Definition pause_duration_mapping : TuyaBLEVirtualNumberMapping :=
  mk_virtual_mapping (mk_description "pause_duration") (PyInt 60).

(** A direct descriptor that is added only when its datapoint exists. *)
Definition optional_mapping : TuyaBLENumberMapping :=
  {| dp_id := 11; description := mk_description "countdown";
     force_add := false; dp_type := Some DT_VALUE;
     coefficient := PyFloat.one; is_available := None;
     getter := None; setter := None; mode := BOX |}.

(** A virtual descriptor with [force_add=False]. *)
Definition optional_virtual_mapping : TuyaBLEVirtualNumberMapping :=
  {| v_description := mk_description "pause_duration";
     v_force_add := false; v_is_available := None; v_getter := None;
     v_setter := None; v_mode := BOX; default_value := PyInt 60 |}.

Definition float_nan : float := S754_nan.
Definition float_inf : float := S754_infinity false.
Definition float_70000 : float := Eval vm_compute in PyFloat.of_scaled 70000 0.
Definition float_300 : float := Eval vm_compute in PyFloat.of_scaled 300 0.

(* ===================================================================== *)
(** * Availability of the repeat count *)
(* ===================================================================== *)

(** C1. For a fingerbot product with a program datapoint configured,
    [is_fingerbot_repeat_count_available] is true exactly when the mode
    datapoint's value is 2 and the big-endian integer decoded from bytes
    [0:2] of the program payload is not 0xFFFF; a datapoint that is absent
    (or a program value that is not a byte sequence) counts as a satisfied
    condition. With mode 2, the payload [ff ff 05] gives false and
    [00 05 05] gives true. *)
Theorem repeat_count_available_iff
    (self : TuyaBLENumber) (p : TuyaBLEProductInfo) (fb : TuyaBLEFingerbotInfo) :
  fingerbot p = Some fb ->
  fb_program fb <> 0 ->
  let dps := datapoints (_device self) in
  (* both datapoints present *)
  (forall dm dp bs,
     dps !! fb_mode fb = Some dm -> dps !! fb_program fb = Some dp ->
     value dp = VBytes bs ->
     (is_fingerbot_repeat_count_available self p = true <->
      value dm = VInt 2 /\ int_from_bytes (take 2 bs) <> 0xFFFF))
  (* the literal payloads *)
  /\ (forall dm dp,
     dps !! fb_mode fb = Some dm -> dps !! fb_program fb = Some dp ->
     value dm = VInt 2 ->
     (value dp = VBytes [xff; xff; x05] ->
      is_fingerbot_repeat_count_available self p = false)
     /\ (value dp = VBytes [x00; x05; x05] ->
      is_fingerbot_repeat_count_available self p = true))
  (* mode datapoint absent *)
  /\ (forall dp bs,
     dps !! fb_mode fb = None -> dps !! fb_program fb = Some dp ->
     value dp = VBytes bs ->
     (is_fingerbot_repeat_count_available self p = true <->
      int_from_bytes (take 2 bs) <> 0xFFFF))
  (* program datapoint absent *)
  /\ (forall dm,
     dps !! fb_mode fb = Some dm -> dps !! fb_program fb = None ->
     (is_fingerbot_repeat_count_available self p = true <->
      value dm = VInt 2))
  (* both absent *)
  /\ (dps !! fb_mode fb = None -> dps !! fb_program fb = None ->
      is_fingerbot_repeat_count_available self p = true)
  (* program value not a byte sequence *)
  /\ (forall dm dp n,
     dps !! fb_mode fb = Some dm -> dps !! fb_program fb = Some dp ->
     value dp = VInt n ->
     (is_fingerbot_repeat_count_available self p = true <->
      value dm = VInt 2)).
Proof.
  intros Hfb Hprog dps.
  assert (Ht : truthy (fb_program fb) = true).
  { unfold truthy. apply negb_true_iff, Z.eqb_neq, Hprog. }
  assert (Hv : forall v, value_eq_int v 2 = true <-> v = VInt 2).
  { intros [z|bs]; simpl; split; intros H; try discriminate.
    - apply Z.eqb_eq in H. now subst.
    - injection H as ->. reflexivity. }
  assert (Hs : forall bs,
            negb (int_from_bytes (take 2 bs) =? 0xFFFF) = true
            <-> int_from_bytes (take 2 bs) <> 0xFFFF).
  { intros bs. rewrite negb_true_iff. apply Z.eqb_neq. }
  unfold is_fingerbot_repeat_count_available, datapoints_getitem.
  rewrite Hfb, Ht. fold dps.
  split; [| split; [| split; [| split; [| split]]]].
  - intros dm dp bs -> -> ->. rewrite <- Hv, <- Hs.
    destruct (value_eq_int (value dm) 2); intuition discriminate.
  - intros dm dp -> -> Hm. apply Hv in Hm. rewrite Hm.
    split; intros ->; reflexivity.
  - intros dp bs -> -> ->. apply Hs.
  - intros dm -> ->. rewrite <- Hv.
    destruct (value_eq_int (value dm) 2); intuition discriminate.
  - intros -> ->. reflexivity.
  - intros dm dp n -> -> ->. rewrite <- Hv.
    destruct (value_eq_int (value dm) 2); intuition discriminate.
Qed.

Lemma repeat_count_available_iff_witness :
  fingerbot fingerbot_plus_product = Some fingerbot_plus_info
  /\ fb_program fingerbot_plus_info <> 0
  /\ is_fingerbot_repeat_count_available
       (fingerbot_entity (fingerbot_store 2 [xff; xff; x05]) repeat_count_mapping)
       fingerbot_plus_product = false
  /\ is_fingerbot_repeat_count_available
       (fingerbot_entity (fingerbot_store 2 [x00; x05; x05]) repeat_count_mapping)
       fingerbot_plus_product = true.
Proof.
  assert (Hp : fb_program fingerbot_plus_info <> 0) by discriminate.
  split; [reflexivity |]. split; [exact Hp |]. split.
  - exact (proj1 (proj1 (proj2
      (repeat_count_available_iff
         (fingerbot_entity (fingerbot_store 2 [xff; xff; x05]) repeat_count_mapping)
         fingerbot_plus_product fingerbot_plus_info eq_refl Hp))
      (int_datapoint 8 2) (raw_datapoint 121 [xff; xff; x05])
      eq_refl eq_refl eq_refl) eq_refl).
  - exact (proj2 (proj1 (proj2
      (repeat_count_available_iff
         (fingerbot_entity (fingerbot_store 2 [x00; x05; x05]) repeat_count_mapping)
         fingerbot_plus_product fingerbot_plus_info eq_refl Hp))
      (int_datapoint 8 2) (raw_datapoint 121 [x00; x05; x05])
      eq_refl eq_refl eq_refl) eq_refl).
Defined.

(* ===================================================================== *)
(** * Bytes and floats *)
(* ===================================================================== *)

Lemma byte_to_of_Z (k : Z) : 0 <= k < 256 -> byte_to_Z (byte_of_Z k) = k.
Proof.
  intros Hk. unfold byte_to_Z, byte_of_Z.
  destruct (Byte.of_N (Z.to_N k)) as [b|] eqn:E.
  - apply Byte.to_of_N in E. rewrite E. lia.
  - apply Byte.of_N_None_iff in E. lia.
Qed.

Lemma length_big_endian (len : nat) (n : Z) : length (big_endian len n) = len.
Proof.
  revert n. induction len as [|k IH]; intros n; simpl; [reflexivity |].
  rewrite length_app, IH. simpl. lia.
Qed.

Lemma int_from_bytes_app (bs : bytes) (b : byte) :
  int_from_bytes (bs ++ [b]) = int_from_bytes bs * 256 + byte_to_Z b.
Proof. unfold int_from_bytes. rewrite fold_left_app. reflexivity. Qed.

Lemma int_from_big_endian (len : nat) (n : Z) :
  0 <= n < 256 ^ Z.of_nat len -> int_from_bytes (big_endian len n) = n.
Proof.
  revert n. induction len as [|k IH]; intros n Hn.
  - simpl in *. change (int_from_bytes []) with 0. lia.
  - cbn [big_endian]. rewrite int_from_bytes_app.
    rewrite Nat2Z.inj_succ, Z.pow_succ_r in Hn by lia.
    rewrite IH, byte_to_of_Z.
    + pose proof (Z.div_mod n 256). lia.
    + apply Z.mod_pos_bound. lia.
    + split; [apply Z.div_pos; lia |].
      apply Z.div_lt_upper_bound; lia.
Qed.

Lemma int_to_bytes_ok (n : Z) (len : nat) :
  0 <= n < 256 ^ Z.of_nat len -> int_to_bytes n len = Ok (big_endian len n).
Proof.
  intros Hn. unfold int_to_bytes.
  destruct (Z.ltb_spec n 0); [lia |].
  destruct (Z.leb_spec (256 ^ Z.of_nat len) n); [lia | reflexivity].
Qed.

Lemma check_bits_sound (f : Z -> bool) (n : nat) (p : Z) :
  check_bits n f p = true ->
  forall v, p * 2 ^ Z.of_nat n <= v < (p + 1) * 2 ^ Z.of_nat n -> f v = true.
Proof.
  revert p. induction n as [|k IH]; intros p Hc v Hv.
  - simpl in *. replace v with p by lia. exact Hc.
  - cbn [check_bits] in Hc. apply andb_true_iff in Hc as [H0 H1].
    rewrite Nat2Z.inj_succ, Z.pow_succ_r in Hv by lia.
    destruct (Z.lt_ge_cases v ((2 * p + 1) * 2 ^ Z.of_nat k)).
    + apply (IH _ H0). lia.
    + apply (IH _ H1). lia.
Qed.

Lemma float_exact_uint16 (v : Z) : 0 <= v < 65536 -> float_exact v = true.
Proof.
  intros Hv. apply (check_bits_sound float_exact 16 0).
  - vm_compute. reflexivity.
  - change (2 ^ Z.of_nat 16) with 65536. lia.
Qed.

(** The three facts [float_exact] packs. *)
Lemma float_exact_elim (v : Z) :
  float_exact v = true ->
  exists f, PyFloat.of_int v = Ok f
    /\ PyFloat.to_int f = Ok v
    /\ PyFloat.int_mul v PyFloat.one = Ok f.
Proof.
  unfold float_exact, PyFloat.int_mul. intros H.
  destruct (PyFloat.of_int v) as [f|] eqn:Ef; [| discriminate].
  exists f. apply andb_true_iff in H as [H1 H2].
  destruct (PyFloat.to_int f) as [n|]; [| discriminate].
  apply Z.eqb_eq in H1. subst n.
  destruct (PyFloat.eq_dec (PyFloat.mul f PyFloat.one) f) as [E|]; [| discriminate].
  simpl. rewrite E. auto.
Qed.

(** Reading back a write to a datapoint that exists. *)
Lemma run_task_lookup (dps : TuyaBLEDataPoints) (i : Z) (dp : TuyaBLEDataPoint)
    (v : DPValue) :
  dps !! i = Some dp ->
  run_task dps {| task_dp := i; task_value := v |} !! i
  = Some {| id := id dp; type := type dp; value := v |}.
Proof.
  intros H. unfold run_task. simpl. rewrite H. apply lookup_insert_eq.
Qed.

(* ===================================================================== *)
(** * The composite accessors of the program datapoint *)
(* ===================================================================== *)

Section ProgramPayload.

Variables (self : TuyaBLENumber) (p : TuyaBLEProductInfo)
          (fb : TuyaBLEFingerbotInfo) (dp : TuyaBLEDataPoint) (bs : bytes).
Hypothesis Hfb : fingerbot p = Some fb.
Hypothesis Hprog : fb_program fb <> 0.
Hypothesis Hdp : datapoints (_device self) !! fb_program fb = Some dp.
Hypothesis Hbs : value dp = VBytes bs.

Lemma program_truthy : truthy (fb_program fb) = true.
Proof. unfold truthy. apply negb_true_iff, Z.eqb_neq, Hprog. Qed.

(** Walk an accessor down to the branch that handles a byte payload. *)
Ltac to_bytes_branch f :=
  unfold f, datapoints_getitem;
  rewrite Hfb, program_truthy, Hdp, Hbs; reflexivity.

(** What the repeat-count setter schedules. *)
Lemma set_repeat_count_eq (v : float) :
  set_fingerbot_program_repeat_count self p v =
  let* n := PyFloat.to_int v in
  let* head := int_to_bytes n 2 in
  Ok [{| task_dp := fb_program fb; task_value := VBytes (head ++ drop 2 bs) |}].
Proof. to_bytes_branch set_fingerbot_program_repeat_count. Qed.

(** What the idle-position setter schedules. *)
Lemma set_position_eq (v : float) :
  set_fingerbot_program_position self p v =
  let* n := PyFloat.to_int v in
  let* new_value := bytearray_setitem bs 2 n in
  Ok [{| task_dp := fb_program fb; task_value := VBytes new_value |}].
Proof. to_bytes_branch set_fingerbot_program_position. Qed.

Lemma get_repeat_count_eq :
  get_fingerbot_program_repeat_count self p =
  let* r := PyFloat.int_mul (int_from_bytes (take 2 bs)) PyFloat.one in
  Ok (Some (PyFloatV r)).
Proof. to_bytes_branch get_fingerbot_program_repeat_count. Qed.

Lemma get_position_eq :
  get_fingerbot_program_position self p =
  let* b := bytes_getitem bs 2 in
  let* r := PyFloat.int_mul b PyFloat.one in
  Ok (Some (PyFloatV r)).
Proof. to_bytes_branch get_fingerbot_program_position. Qed.

(** The write of the repeat-count setter for an integer part that fits
    two bytes. *)
Lemma set_repeat_count_written (v : float) (n : Z) :
  PyFloat.to_int v = Ok n ->
  0 <= n <= 0xFFFF ->
  set_fingerbot_program_repeat_count self p v
  = Ok [{| task_dp := fb_program fb;
           task_value := VBytes (big_endian 2 n ++ drop 2 bs) |}].
Proof.
  intros Hn Hr. rewrite set_repeat_count_eq, Hn. cbn [obind].
  rewrite int_to_bytes_ok by (change (256 ^ Z.of_nat 2) with 65536; lia).
  reflexivity.
Qed.

End ProgramPayload.

(** C3, amended. For a program payload that is a byte sequence and a value
    whose integer part [n] the field can hold: the repeat-count setter
    ([0 <= n <= 0xFFFF]) writes the two big-endian bytes of [n] followed by
    every byte of the payload from offset 2 on; the idle-position setter
    ([0 <= n <= 255]), on a payload of at least 3 bytes, writes a sequence
    of the same length that holds [n] at index 2 and the payload's bytes
    everywhere else. *)
Theorem program_setters_preserve_other_bytes
    (self : TuyaBLENumber) (p : TuyaBLEProductInfo) (fb : TuyaBLEFingerbotInfo)
    (dp : TuyaBLEDataPoint) (bs : bytes) (v : float) (n : Z) :
  fingerbot p = Some fb ->
  fb_program fb <> 0 ->
  datapoints (_device self) !! fb_program fb = Some dp ->
  value dp = VBytes bs ->
  PyFloat.to_int v = Ok n ->
  (0 <= n <= 0xFFFF ->
   exists w,
     set_fingerbot_program_repeat_count self p v
     = Ok [{| task_dp := fb_program fb; task_value := VBytes w |}]
     /\ take 2 w = big_endian 2 n
     /\ drop 2 w = drop 2 bs
     /\ ((2 <= length bs)%nat -> length w = length bs))
  /\ (0 <= n <= 255 -> (3 <= length bs)%nat ->
   exists w,
     set_fingerbot_program_position self p v
     = Ok [{| task_dp := fb_program fb; task_value := VBytes w |}]
     /\ length w = length bs
     /\ w !! 2%nat = Some (byte_of_Z n)
     /\ forall i : nat, i <> 2%nat -> w !! i = bs !! i).
Proof.
  intros Hfb Hprog Hdp Hbs Hn. split.
  - intros Hr. exists (big_endian 2 n ++ drop 2 bs).
    split; [exact (set_repeat_count_written self p fb dp bs Hfb Hprog Hdp Hbs v n Hn Hr) |].
    pose proof (length_big_endian 2 n) as Hlen.
    split; [| split].
    + rewrite take_app_length'; [reflexivity | exact Hlen].
    + rewrite drop_app_length'; [reflexivity | exact Hlen].
    + intros Hl. rewrite length_app, Hlen, length_drop. lia.
  - intros Hr Hl. exists (<[2%nat := byte_of_Z n]> bs).
    rewrite (set_position_eq self p fb dp bs Hfb Hprog Hdp Hbs), Hn.
    cbn [obind]. unfold bytearray_setitem.
    destruct (Z.ltb_spec n 0); [lia |].
    destruct (Z.ltb_spec 255 n); [lia |]. cbn [orb].
    destruct (Nat.ltb_spec 2 (length bs)); [| lia]. cbn [obind].
    split; [reflexivity |]. split; [apply length_insert |].
    split.
    + apply list_lookup_insert_eq. lia.
    + intros i Hi. apply list_lookup_insert_ne. congruence.
Qed.

Lemma program_setters_preserve_other_bytes_witness :
  let self := fingerbot_entity (fingerbot_store 2 [x00; x05; x05; xaa])
                idle_position_mapping in
  fingerbot fingerbot_plus_product = Some fingerbot_plus_info
  /\ fb_program fingerbot_plus_info <> 0
  /\ PyFloat.to_int float_37 = Ok 37
  /\ exists w,
     set_fingerbot_program_position self fingerbot_plus_product float_37
     = Ok [{| task_dp := 121; task_value := VBytes w |}]
     /\ length w = 4%nat
     /\ w !! 2%nat = Some (byte_of_Z 37)
     /\ forall i : nat, i <> 2%nat -> w !! i = [x00; x05; x05; xaa] !! i.
Proof.
  intros self.
  assert (Hp : fb_program fingerbot_plus_info <> 0) by discriminate.
  split; [reflexivity |]. split; [exact Hp |]. split; [reflexivity |].
  exact (proj2
    (program_setters_preserve_other_bytes self fingerbot_plus_product
       fingerbot_plus_info (raw_datapoint 121 [x00; x05; x05; xaa])
       [x00; x05; x05; xaa] float_37 37 eq_refl Hp eq_refl eq_refl eq_refl)
    ltac:(lia) ltac:(simpl; lia)).
Defined.

(** C3 as stated fails on a payload shorter than 3 bytes: with the
    two-byte payload [00 05] the idle-position setter raises [IndexError]
    and writes nothing. *)
Lemma position_setter_writes_nothing_on_short_payload :
  let self := fingerbot_entity (fingerbot_store 2 [x00; x05])
                idle_position_mapping in
  set_fingerbot_program_position self fingerbot_plus_product float_37
  = Raise IndexError
  /\ ~ exists w,
       set_fingerbot_program_position self fingerbot_plus_product float_37
       = Ok [{| task_dp := 121; task_value := VBytes w |}].
Proof.
  intros self. split; [reflexivity |].
  intros [w Hw]. vm_compute in Hw. discriminate Hw.
Qed.

(** C4. For a program payload of at least 2 bytes and an integer [v] in
    [1, 0xFFFE] (so for 1000): the repeat-count setter, given [float(v)],
    schedules one write; every byte of the written payload from offset 2
    on is the input's, and the repeat-count getter on the written payload
    returns [float(v)], whose integer value is [v]. *)
Theorem repeat_count_roundtrip
    (self : TuyaBLENumber) (p : TuyaBLEProductInfo) (fb : TuyaBLEFingerbotInfo)
    (dp : TuyaBLEDataPoint) (bs : bytes) (v : Z) :
  fingerbot p = Some fb ->
  fb_program fb <> 0 ->
  datapoints (_device self) !! fb_program fb = Some dp ->
  value dp = VBytes bs ->
  (2 <= length bs)%nat ->
  1 <= v <= 0xFFFE ->
  exists (f : float) (w : bytes),
    PyFloat.of_int v = Ok f
    /\ PyFloat.to_int f = Ok v
    /\ set_fingerbot_program_repeat_count self p f
       = Ok [{| task_dp := fb_program fb; task_value := VBytes w |}]
    /\ drop 2 w = drop 2 bs
    /\ length w = length bs
    /\ get_fingerbot_program_repeat_count
         (after_tasks self [{| task_dp := fb_program fb; task_value := VBytes w |}]) p
       = Ok (Some (PyFloatV f)).
Proof.
  intros Hfb Hprog Hdp Hbs Hlen Hv.
  destruct (float_exact_elim v (float_exact_uint16 v ltac:(lia)))
    as (f & Hf & Hint & Hmul).
  pose proof (set_repeat_count_written self p fb dp bs Hfb Hprog Hdp Hbs f v
                Hint ltac:(lia)) as Hw.
  pose proof (length_big_endian 2 v) as Hl2.
  set (w := big_endian 2 v ++ drop 2 bs) in *.
  assert (Htake : take 2 w = big_endian 2 v).
  { unfold w. rewrite take_app_length'; [reflexivity | exact Hl2]. }
  exists f, w. split; [exact Hf |]. split; [exact Hint |].
  split; [exact Hw |]. split.
  { unfold w. rewrite drop_app_length'; [reflexivity | exact Hl2]. }
  split.
  { unfold w. rewrite length_app, Hl2, length_drop. lia. }
  set (self' := after_tasks self _).
  assert (Hdp' : datapoints (_device self') !! fb_program fb
                 = Some {| id := id dp; type := type dp; value := VBytes w |}).
  { unfold self', after_tasks. cbn. apply run_task_lookup, Hdp. }
  rewrite (get_repeat_count_eq self' p fb _ w Hfb Hprog Hdp' eq_refl).
  rewrite Htake, int_from_big_endian by (change (256 ^ Z.of_nat 2) with 65536; lia).
  rewrite Hmul. reflexivity.
Qed.

Lemma repeat_count_roundtrip_witness :
  let self := fingerbot_entity (fingerbot_store 2 [x00; x05; x05; xaa])
                repeat_count_mapping in
  (2 <= length [x00; x05; x05; xaa])%nat
  /\ 1 <= 1000 <= 0xFFFE
  /\ exists (f : float) (w : bytes),
    PyFloat.of_int 1000 = Ok f
    /\ PyFloat.to_int f = Ok 1000
    /\ set_fingerbot_program_repeat_count self fingerbot_plus_product f
       = Ok [{| task_dp := 121; task_value := VBytes w |}]
    /\ drop 2 w = drop 2 [x00; x05; x05; xaa]
    /\ length w = length [x00; x05; x05; xaa]
    /\ get_fingerbot_program_repeat_count
         (after_tasks self [{| task_dp := 121; task_value := VBytes w |}])
         fingerbot_plus_product
       = Ok (Some (PyFloatV f)).
Proof.
  intros self.
  assert (Hl : (2 <= length [x00; x05; x05; xaa])%nat) by (simpl; lia).
  assert (Hv : 1 <= 1000 <= 0xFFFE) by lia.
  split; [exact Hl |]. split; [exact Hv |].
  exact (repeat_count_roundtrip self fingerbot_plus_product fingerbot_plus_info
           (raw_datapoint 121 [x00; x05; x05; xaa]) [x00; x05; x05; xaa] 1000
           eq_refl ltac:(discriminate) eq_refl eq_refl Hl Hv).
Defined.

(** The payload written for 1000 on [00 05 05 aa], and its decoding. *)
Example repeat_count_1000 :
  let self := fingerbot_entity (fingerbot_store 2 [x00; x05; x05; xaa])
                repeat_count_mapping in
  let write := {| task_dp := 121; task_value := VBytes [x03; xe8; x05; xaa] |} in
  set_fingerbot_program_repeat_count self fingerbot_plus_product float_1000
  = Ok [write]
  /\ get_fingerbot_program_repeat_count (after_tasks self [write])
       fingerbot_plus_product
     = Ok (Some (PyFloatV float_1000)).
Proof. split; vm_compute; reflexivity. Qed.

(** The four accessors guard the payload's type: on a program datapoint
    that holds an integer they return [None] and write nothing. *)
Lemma program_accessors_guard_type
    (self : TuyaBLENumber) (p : TuyaBLEProductInfo) (fb : TuyaBLEFingerbotInfo)
    (dp : TuyaBLEDataPoint) (n : Z) (v : float) :
  fingerbot p = Some fb ->
  datapoints (_device self) !! fb_program fb = Some dp ->
  value dp = VInt n ->
  get_fingerbot_program_repeat_count self p = Ok None
  /\ get_fingerbot_program_position self p = Ok None
  /\ set_fingerbot_program_repeat_count self p v = Ok []
  /\ set_fingerbot_program_position self p v = Ok [].
Proof.
  intros Hfb Hdp Hn.
  unfold get_fingerbot_program_repeat_count, get_fingerbot_program_position,
    set_fingerbot_program_repeat_count, set_fingerbot_program_position,
    datapoints_getitem.
  rewrite Hfb, Hdp, Hn. destruct (truthy (fb_program fb)); auto.
Qed.

(** The repeat-count getter slices, so it returns a number on every byte
    payload, however short. *)
Lemma get_repeat_count_total
    (self : TuyaBLENumber) (p : TuyaBLEProductInfo) (fb : TuyaBLEFingerbotInfo)
    (dp : TuyaBLEDataPoint) (bs : bytes) :
  fingerbot p = Some fb ->
  fb_program fb <> 0 ->
  datapoints (_device self) !! fb_program fb = Some dp ->
  value dp = VBytes bs ->
  exists f, get_fingerbot_program_repeat_count self p = Ok (Some (PyFloatV f)).
Proof.
  intros Hfb Hprog Hdp Hbs.
  rewrite (get_repeat_count_eq self p fb dp bs Hfb Hprog Hdp Hbs).
  assert (Hr : 0 <= int_from_bytes (take 2 bs) < 65536).
  { unfold int_from_bytes, byte_to_Z.
    destruct bs as [|a [|b bs']]; simpl.
    - lia.
    - pose proof (Byte.to_N_bounded a). lia.
    - pose proof (Byte.to_N_bounded a).
      pose proof (Byte.to_N_bounded b). lia. }
  destruct (float_exact_elim _ (float_exact_uint16 _ Hr)) as (f & _ & _ & Hmul).
  exists f. rewrite Hmul. reflexivity.
Qed.

(** C7. The idle-position accessors index byte 2 behind a type guard only:
    on a byte payload shorter than 3 bytes the getter raises [IndexError],
    and so does the setter for any value a byte can hold. *)
Theorem program_position_raises_on_short_payload
    (self : TuyaBLENumber) (p : TuyaBLEProductInfo) (fb : TuyaBLEFingerbotInfo)
    (dp : TuyaBLEDataPoint) (bs : bytes) :
  fingerbot p = Some fb ->
  fb_program fb <> 0 ->
  datapoints (_device self) !! fb_program fb = Some dp ->
  value dp = VBytes bs ->
  (length bs < 3)%nat ->
  get_fingerbot_program_position self p = Raise IndexError
  /\ forall (v : float) (n : Z),
       PyFloat.to_int v = Ok n -> 0 <= n <= 255 ->
       set_fingerbot_program_position self p v = Raise IndexError.
Proof.
  intros Hfb Hprog Hdp Hbs Hlen. split.
  - rewrite (get_position_eq self p fb dp bs Hfb Hprog Hdp Hbs).
    unfold bytes_getitem.
    rewrite (lookup_ge_None_2 bs 2) by lia. reflexivity.
  - intros v n Hn Hr.
    rewrite (set_position_eq self p fb dp bs Hfb Hprog Hdp Hbs), Hn.
    cbn [obind]. unfold bytearray_setitem.
    destruct (Z.ltb_spec n 0); [lia |].
    destruct (Z.ltb_spec 255 n); [lia |]. cbn [orb].
    destruct (Nat.ltb_spec 2 (length bs)); [lia | reflexivity].
Qed.

Lemma program_position_raises_on_short_payload_witness :
  let self := fingerbot_entity (fingerbot_store 2 [x00; x05])
                idle_position_mapping in
  (length [x00; x05] < 3)%nat
  /\ get_fingerbot_program_position self fingerbot_plus_product
     = Raise IndexError
  /\ set_fingerbot_program_position self fingerbot_plus_product float_37
     = Raise IndexError.
Proof.
  intros self.
  assert (Hl : (length [x00; x05] < 3)%nat) by (simpl; lia).
  split; [exact Hl |].
  pose proof (program_position_raises_on_short_payload self
    fingerbot_plus_product fingerbot_plus_info (raw_datapoint 121 [x00; x05])
    [x00; x05] eq_refl ltac:(discriminate) eq_refl eq_refl Hl) as [Hg Hs].
  split; [exact Hg |].
  exact (Hs float_37 37 eq_refl ltac:(lia)).
Defined.

(* ===================================================================== *)
(** * The datapoint-bound adapter *)
(* ===================================================================== *)

(** C2, amended. For a direct adapter: without a custom getter and with
    its datapoint present and holding the integer [z], [native_value] is
    [z / coefficient]; without a custom setter, [set_native_value v]
    schedules exactly one write, of the integer [int(v * coefficient)],
    the product truncated toward zero. *)
Theorem direct_adapter_scaling (self : TuyaBLENumber) (m : TuyaBLENumberMapping) :
  _mapping self = Direct m ->
  (getter m = None ->
   forall dp z,
     datapoints (_device self) !! dp_id m = Some dp ->
     value dp = VInt z ->
     native_value self =
     let* r := PyFloat.int_truediv z (coefficient m) in Ok (Some (PyFloatV r)))
  /\ (setter m = None ->
   forall v : float,
     set_native_value self v =
     let* n := PyFloat.to_int (PyFloat.mul v (coefficient m)) in
     Ok ((get_or_create (datapoints (_device self)) (dp_id m) DT_VALUE (VInt n)).1,
         [{| task_dp := dp_id m; task_value := VInt n |}])).
Proof.
  intros Hm. split.
  - intros Hg dp z Hdp Hz. unfold native_value, datapoints_getitem.
    rewrite Hm. cbn [attr_getter attr_dp_id attr_coefficient obind].
    rewrite Hg, Hdp, Hz. cbn [obind value_truediv].
    destruct (PyFloat.int_truediv z (coefficient m)); reflexivity.
  - intros Hs v. unfold set_native_value.
    rewrite Hm. cbn [attr_setter attr_dp_id attr_coefficient obind].
    rewrite Hs.
    destruct (PyFloat.to_int (PyFloat.mul v (coefficient m))) as [n|e];
      cbn [obind]; [| reflexivity].
    destruct (get_or_create _ _ _ _). reflexivity.
Qed.

Lemma direct_adapter_scaling_witness :
  let self := hold_time_entity (<[10 := int_datapoint 10 25]> ∅) in
  _mapping self = Direct hold_time_mapping
  /\ getter hold_time_mapping = None
  /\ setter hold_time_mapping = None
  /\ native_value self = Ok (Some (PyFloatV float_2_5))
  /\ set_native_value self float_0375
     = Ok (<[10 := int_datapoint 10 25]> ∅,
           [{| task_dp := 10; task_value := VInt 3 |}]).
Proof.
  intros self.
  pose proof (direct_adapter_scaling self hold_time_mapping eq_refl) as [Hg Hs].
  split; [reflexivity |]. split; [reflexivity |]. split; [reflexivity |].
  split.
  - exact (Hg eq_refl (int_datapoint 10 25) 25 eq_refl eq_refl).
  - exact (Hs eq_refl float_0375).
Defined.

(** C2 as stated fails where truncation and rounding part: for the
    hold-time control (coefficient 10.0) and the value 0.375 the setter
    writes [int(3.75) = 3], and [round(3.75)] is 4. *)
Lemma set_native_value_truncates :
  let self := hold_time_entity no_datapoints in
  setter hold_time_mapping = None
  /\ (exists dps,
        set_native_value self float_0375
        = Ok (dps, [{| task_dp := 10; task_value := VInt 3 |}]))
  /\ spec_written_value hold_time_mapping float_0375 = Ok 4
  /\ ~ (forall dps n,
          set_native_value self float_0375
          = Ok (dps, [{| task_dp := 10; task_value := VInt n |}]) ->
          spec_written_value hold_time_mapping float_0375 = Ok n).
Proof.
  intros self.
  assert (Hw : set_native_value self float_0375
               = Ok (<[10 := int_datapoint 10 3]> ∅,
                     [{| task_dp := 10; task_value := VInt 3 |}]))
    by reflexivity.
  split; [reflexivity |]. split; [eexists; exact Hw |].
  split; [reflexivity |].
  intros H. specialize (H _ _ Hw). vm_compute in H. discriminate H.
Qed.

(** C8. For a direct adapter with no custom getter whose datapoint is
    absent from the store, [native_value] returns the descriptor's
    [native_min_value] without raising; it is a number whenever the
    descriptor configures a minimum, as every direct descriptor of the
    registry does. *)
Theorem native_value_missing_datapoint (self : TuyaBLENumber)
    (m : TuyaBLENumberMapping) :
  _mapping self = Direct m ->
  getter m = None ->
  datapoints (_device self) !! dp_id m = None ->
  native_value self = Ok (native_min_value (description m))
  /\ forall x, native_min_value (description m) = Some x ->
       native_value self = Ok (Some x).
Proof.
  intros Hm Hg Hdp.
  assert (H : native_value self = Ok (native_min_value (description m))).
  { unfold native_value, datapoints_getitem.
    rewrite Hm. cbn [attr_getter attr_dp_id attr_description obind].
    rewrite Hg, Hdp. reflexivity. }
  split; [exact H |]. intros x Hx. rewrite H, Hx. reflexivity.
Qed.

Lemma native_value_missing_datapoint_witness :
  let self := hold_time_entity no_datapoints in
  _mapping self = Direct hold_time_mapping
  /\ getter hold_time_mapping = None
  /\ datapoints (_device self) !! dp_id hold_time_mapping = None
  /\ native_value self = Ok (Some (PyInt 0)).
Proof.
  intros self.
  split; [reflexivity |]. split; [reflexivity |]. split; [reflexivity |].
  exact (proj2 (native_value_missing_datapoint self hold_time_mapping
                  eq_refl eq_refl eq_refl) (PyInt 0) eq_refl).
Defined.

(* ===================================================================== *)
(** * Registry lookup *)
(* ===================================================================== *)

Lemma mapping_categories (c : string) (cat : TuyaBLECategoryNumberMapping) :
  mapping !! c = Some cat -> products_only cat = true.
Proof.
  intros H. apply elem_of_map_to_list in H.
  assert (Hall : forallb (fun kc => products_only kc.2) (map_to_list mapping) = true)
    by (vm_compute; reflexivity).
  rewrite forallb_forall in Hall.
  apply (Hall (c, cat)). apply list_elem_of_In, H.
Qed.

(** C5. [get_mapping_by_device] is [resolve] on the module's registry. For
    every registry and device: a product present in the category's product
    map gets its configured list; a product absent from the product map of
    a category with a fallback list gets the fallback list; every other
    pair (unknown category, or no match and no fallback) gets the empty
    list, and so does a category without a product map, which the module's
    registry does not contain. *)
Theorem resolve_cases (registry : gmap string TuyaBLECategoryNumberMapping)
    (d : TuyaBLEDevice) :
  (forall cat prods l,
     registry !! category d = Some cat ->
     products cat = Some prods ->
     prods !! product_id d = Some l ->
     resolve registry d = l)
  /\ (forall cat prods fallback,
     registry !! category d = Some cat ->
     products cat = Some prods ->
     prods !! product_id d = None ->
     cat_mapping cat = Some fallback ->
     resolve registry d = fallback)
  /\ (registry !! category d = None -> resolve registry d = [])
  /\ (forall cat prods,
     registry !! category d = Some cat ->
     products cat = Some prods ->
     prods !! product_id d = None ->
     cat_mapping cat = None ->
     resolve registry d = [])
  /\ (forall cat,
     registry !! category d = Some cat ->
     products cat = None ->
     resolve registry d = [])
  /\ get_mapping_by_device d = resolve mapping d
  /\ (forall c cat, mapping !! c = Some cat -> is_Some (products cat)).
Proof.
  unfold resolve. repeat split.
  - intros cat prods l -> -> ->. reflexivity.
  - intros cat prods fallback -> -> -> ->. reflexivity.
  - intros ->. reflexivity.
  - intros cat prods -> -> -> ->. reflexivity.
  - intros cat -> ->. reflexivity.
  - intros c cat H. apply mapping_categories in H.
    unfold products_only in H. destruct (products cat); [eauto | discriminate].
Qed.

(** The cases of [resolve_cases] on example registries: a configured
    product of the module's registry, the fallback list, a category without
    product map, and an unknown category. *)
Lemma resolve_cases_witness :
  get_mapping_by_device (mk_device "co2bj" "59s19z5m" no_datapoints)
  = co2_detector
  /\ resolve fallback_registry (mk_device "ggq" "unknown" no_datapoints)
     = irrigation_sgw02
  /\ resolve fallback_registry (mk_device "wk" "drlajpqc" no_datapoints) = []
  /\ get_mapping_by_device (mk_device "co2bj" "unknown" no_datapoints) = []
  /\ get_mapping_by_device (mk_device "unknown" "59s19z5m" no_datapoints) = [].
Proof.
  split; [| split; [| split; [| split]]].
  - exact (proj1 (resolve_cases mapping (mk_device "co2bj" "59s19z5m" no_datapoints))
             (category_of co2bj_items) (dict_display co2bj_items) co2_detector
             eq_refl eq_refl eq_refl).
  - exact (proj1 (proj2 (resolve_cases fallback_registry
                           (mk_device "ggq" "unknown" no_datapoints)))
             {| products := Some (dict_display [("6pahkcau", irrigation_parkside)]);
                cat_mapping := Some irrigation_sgw02 |}
             (dict_display [("6pahkcau", irrigation_parkside)]) irrigation_sgw02
             eq_refl eq_refl eq_refl eq_refl).
  - exact (proj1 (proj2 (proj2 (proj2 (proj2 (resolve_cases fallback_registry
                           (mk_device "wk" "drlajpqc" no_datapoints))))))
             {| products := None; cat_mapping := Some radiator_valve |}
             eq_refl eq_refl).
  - exact (proj1 (proj2 (proj2 (proj2 (resolve_cases mapping
                           (mk_device "co2bj" "unknown" no_datapoints)))))
             (category_of co2bj_items) (dict_display co2bj_items)
             eq_refl eq_refl eq_refl eq_refl).
  - exact (proj1 (proj2 (proj2 (resolve_cases mapping
                           (mk_device "unknown" "59s19z5m" no_datapoints))))
             eq_refl).
Defined.

Lemma resolve_reachable (registry : gmap string TuyaBLECategoryNumberMapping)
    (d : TuyaBLEDevice) :
  resolve registry d = [] \/ resolve registry d ∈ reachable_lists registry.
Proof.
  unfold resolve.
  destruct (registry !! category d) as [cat|] eqn:Hc; [| now left].
  destruct (products cat) as [prods|] eqn:Hp; [| now left].
  assert (Hin : forall l,
            l ∈ (map_to_list prods).*2
                ++ match cat_mapping cat with Some l => [l] | None => [] end ->
            l ∈ reachable_lists registry).
  { intros l Hl. unfold reachable_lists. apply list_elem_of_bind.
    exists (category d, cat). split.
    - rewrite Hp. exact Hl.
    - apply elem_of_map_to_list, Hc. }
  destruct (prods !! product_id d) as [l|] eqn:Hl.
  - right. apply Hin, elem_of_app. left.
    apply list_elem_of_fmap. exists (product_id d, l). split; [reflexivity |].
    apply elem_of_map_to_list, Hl.
  - destruct (cat_mapping cat) as [fallback|]; [| now left].
    right. apply Hin, elem_of_app. right. apply list_elem_of_singleton.
    reflexivity.
Qed.

(** Every descriptor [get_mapping_by_device] can return passes
    [registry_entry_ok]. *)
Lemma registry_entries_ok (d : TuyaBLEDevice) (m : Mapping) :
  m ∈ get_mapping_by_device d -> registry_entry_ok m = true.
Proof.
  intros Hm. unfold get_mapping_by_device in Hm.
  assert (Hall : forallb (forallb registry_entry_ok) (reachable_lists mapping) = true)
    by (vm_compute; reflexivity).
  rewrite forallb_forall in Hall.
  destruct (resolve_reachable mapping d) as [E | Hin].
  - rewrite E in Hm. inversion Hm.
  - apply list_elem_of_In, Hall in Hin. rewrite forallb_forall in Hin.
    apply Hin, list_elem_of_In, Hm.
Qed.

(** Every direct descriptor of the registry configures a minimum. *)
Lemma registry_minimum_configured (d : TuyaBLEDevice) (m : TuyaBLENumberMapping) :
  Direct m ∈ get_mapping_by_device d ->
  is_Some (native_min_value (description m)).
Proof.
  intros Hm. apply registry_entries_ok in Hm.
  unfold registry_entry_ok in Hm.
  apply andb_true_iff in Hm as [_ Hm]. cbn in Hm.
  destruct (native_min_value (description m)); [eauto | discriminate].
Qed.

(** C9. The product map of category "ggq" is written with two items under
    the key "hfgdqhho", holding different lists. The lookup returns the
    second: two descriptors, "countdown_duration_z1" on datapoint 106 and
    "countdown_duration_z2" on datapoint 103. No lookup returns a
    descriptor with key "countdown_duration_1" or "countdown_duration_2". *)
Theorem duplicate_product_key_last_wins :
  (ggq_items !! 1%nat = Some ("hfgdqhho", irrigation_sgw08)
   /\ ggq_items !! 2%nat = Some ("hfgdqhho", irrigation_sgw02)
   /\ irrigation_sgw08 <> irrigation_sgw02)
  /\ (forall d : TuyaBLEDevice,
        category d = "ggq" -> product_id d = "hfgdqhho" ->
        get_mapping_by_device d = irrigation_sgw02)
  /\ map (fun m => (key_of m, attr_dp_id m)) irrigation_sgw02
     = [("countdown_duration_z1", Ok 106); ("countdown_duration_z2", Ok 103)]
  /\ (forall (d : TuyaBLEDevice) (m : Mapping),
        m ∈ get_mapping_by_device d ->
        key_of m <> "countdown_duration_1" /\ key_of m <> "countdown_duration_2").
Proof.
  split; [| split; [| split]].
  - split; [reflexivity |]. split; [reflexivity |]. intros H.
    assert (E : map key_of irrigation_sgw08 = map key_of irrigation_sgw02)
      by (rewrite H; reflexivity).
    vm_compute in E. discriminate E.
  - intros d Hc Hp. unfold get_mapping_by_device, resolve.
    rewrite Hc, Hp. vm_compute. reflexivity.
  - reflexivity.
  - intros d m Hm. apply registry_entries_ok in Hm.
    unfold registry_entry_ok in Hm.
    repeat (apply andb_true_iff in Hm as [Hm ?]).
    split; intros E.
    + rewrite E in *. discriminate.
    + rewrite E in *. discriminate.
Qed.

Lemma duplicate_product_key_last_wins_witness :
  category (mk_device "ggq" "hfgdqhho" no_datapoints) = "ggq"
  /\ product_id (mk_device "ggq" "hfgdqhho" no_datapoints) = "hfgdqhho"
  /\ get_mapping_by_device (mk_device "ggq" "hfgdqhho" no_datapoints)
     = irrigation_sgw02.
Proof.
  split; [reflexivity |]. split; [reflexivity |].
  exact (proj1 (proj2 duplicate_product_key_last_wins)
           (mk_device "ggq" "hfgdqhho" no_datapoints) eq_refl eq_refl).
Defined.

(* ===================================================================== *)
(** * Platform setup *)
(* ===================================================================== *)

(** Whatever the list, the loop only ever appends [TuyaBLENumber]
    adapters. *)
Lemma setup_entities_numbers (data : TuyaBLEData) (ms : list Mapping) :
  forall acc es,
    setup_entities data ms acc = Ok es ->
    forallb is_number_entity acc = true ->
    forallb is_number_entity es = true.
Proof.
  induction ms as [|m ms IH]; intros acc es H Hacc.
  - simpl in H. injection H as <-. exact Hacc.
  - cbn [setup_entities] in H.
    destruct (attr_force_add m).
    + cbn [obind] in H. apply IH in H; [exact H |].
      rewrite forallb_app, Hacc. reflexivity.
    + destruct (attr_dp_id m) as [i|]; [| discriminate].
      destruct (attr_dp_type m) as [t|]; [| discriminate].
      cbn [obind] in H. destruct (has_id _ i t).
      * apply IH in H; [exact H |]. rewrite forallb_app, Hacc. reflexivity.
      * apply IH in H; [exact H | exact Hacc].
Qed.

(** With [force_add] set on every descriptor, every descriptor gets its
    adapter, in order. *)
Lemma setup_entities_force_add (data : TuyaBLEData) (ms : list Mapping) :
  forallb attr_force_add ms = true ->
  forall acc,
    setup_entities data ms acc = Ok (acc ++ map (number_entity data) ms).
Proof.
  induction ms as [|m ms IH]; intros Hf acc.
  - simpl. rewrite app_nil_r. reflexivity.
  - cbn [forallb] in Hf. apply andb_true_iff in Hf as [Hm Hms].
    cbn [setup_entities]. rewrite Hm. cbn [obind].
    rewrite (IH Hms), <- app_assoc. reflexivity.
Qed.

(** The registry's virtual descriptors have no custom getter. *)
Lemma registry_virtual_no_getter (d : TuyaBLEDevice)
    (vm : TuyaBLEVirtualNumberMapping) :
  Virtual vm ∈ get_mapping_by_device d -> v_getter vm = None.
Proof.
  intros Hm. unfold get_mapping_by_device in Hm.
  assert (Hall : forallb (forallb descriptor_well_formed) (reachable_lists mapping)
                 = true) by (vm_compute; reflexivity).
  rewrite forallb_forall in Hall.
  destruct (resolve_reachable mapping d) as [E | Hin].
  - rewrite E in Hm. inversion Hm.
  - apply list_elem_of_In, Hall in Hin. rewrite forallb_forall in Hin.
    apply list_elem_of_In, Hin in Hm. clear Hall Hin.
    unfold descriptor_well_formed in Hm.
    destruct (v_getter vm); [discriminate Hm | reflexivity].
Qed.

(** On the module's registry the setup returns the adapter of every
    resolved descriptor, in order. *)
Lemma setup_registry_entities (data : TuyaBLEData) :
  async_setup_entry data
  = Ok (map (number_entity data) (get_mapping_by_device (device data))).
Proof.
  unfold async_setup_entry. apply (setup_entities_force_add data).
  apply forallb_forall. intros m Hm.
  apply list_elem_of_In, registry_entries_ok in Hm.
  unfold registry_entry_ok in Hm.
  apply andb_true_iff in Hm as [Hm _].
  apply andb_true_iff in Hm as [Hm _].
  apply andb_true_iff in Hm as [Hm _]. exact Hm.
Qed.

Lemma Forall2_map_intro {A B} (P : A -> B -> Prop) (f : A -> B) (l : list A) :
  (forall x, x ∈ l -> P x (f x)) -> Forall2 P l (map f l).
Proof.
  induction l as [|x l IH]; intros H; cbn [map]; constructor.
  - apply H. left.
  - apply IH. intros y Hy. apply H. right. exact Hy.
Qed.

(** Reading an adapter that wraps a virtual descriptor without getter. *)
Lemma native_value_of_virtual (self : TuyaBLENumber)
    (vm : TuyaBLEVirtualNumberMapping) :
  _mapping self = Virtual vm ->
  v_getter vm = None ->
  native_value self = Raise (AttributeError "dp_id").
Proof.
  intros Hm Hg. unfold native_value. rewrite Hm. cbn [attr_getter].
  rewrite Hg. reflexivity.
Qed.

(** C10. [async_setup_entry] hands the host one [TuyaBLENumber] per
    resolved descriptor, in order, each holding its own descriptor, the
    device and the product; virtual descriptors are among them (their
    [force_add] is true), and no list makes the loop construct a
    [TuyaBLEVirtualNumber]. Reading [native_value] of an adapter that
    setup built from a virtual descriptor raises [AttributeError] on
    [dp_id]; the descriptor's default value is not returned. For the
    smart water valve the third adapter is the one of the
    "watering_duration" descriptor. *)
Theorem setup_wraps_virtual_descriptors_in_number_adapters (data : TuyaBLEData) :
  (exists es,
     async_setup_entry data = Ok es
     /\ Forall2
          (fun m e =>
             exists n, e = NumberEntity_ n
               /\ _mapping n = m
               /\ _device n = device data
               /\ _product n = product data
               /\ forall vm, m = Virtual vm ->
                    native_value n = Raise (AttributeError "dp_id")
                    /\ native_value n <> Ok (Some (default_value vm)))
          (get_mapping_by_device (device data)) es
     /\ (forall v, VirtualNumberEntity_ v ∉ es))
  /\ (forall ms es,
        setup_entities data ms [] = Ok es ->
        forall e, e ∈ es -> exists n, e = NumberEntity_ n)
  /\ (exists n1 n2 n3,
        async_setup_entry water_valve_data
        = Ok [NumberEntity_ n1; NumberEntity_ n2; NumberEntity_ n3]
        /\ _mapping n3 = Virtual watering_duration_mapping
        /\ v_force_add watering_duration_mapping = true
        /\ native_value n3 = Raise (AttributeError "dp_id")
        /\ native_value n3
           <> Ok (Some (default_value watering_duration_mapping)))
  /\ (forall (self : TuyaBLENumber) (vm : TuyaBLEVirtualNumberMapping),
        _mapping self = Virtual vm ->
        v_getter vm = None ->
        native_value self = Raise (AttributeError "dp_id")
        /\ native_value self <> Ok (Some (default_value vm))).
Proof.
  assert (Hnum : forall ms es,
            setup_entities data ms [] = Ok es ->
            forall e, e ∈ es -> exists n, e = NumberEntity_ n).
  { intros ms es H e He.
    apply setup_entities_numbers in H; [| reflexivity].
    rewrite forallb_forall in H.
    apply list_elem_of_In, H in He.
    destruct e as [n|v]; [eauto | discriminate]. }
  split; [| split; [exact Hnum | split]].
  - exists (map (number_entity data) (get_mapping_by_device (device data))).
    split; [apply setup_registry_entities |]. split.
    + apply Forall2_map_intro. intros m Hm.
      exists (TuyaBLENumber_init (device data) (product data) m).
      split; [reflexivity |]. split; [reflexivity |].
      split; [reflexivity |]. split; [reflexivity |].
      intros vm ->.
      assert (H : native_value
                    (TuyaBLENumber_init (device data) (product data) (Virtual vm))
                  = Raise (AttributeError "dp_id")).
      { apply (native_value_of_virtual _ vm); [reflexivity |].
        exact (registry_virtual_no_getter _ _ Hm). }
      split; [exact H |]. rewrite H. discriminate.
    + intros v Hv.
      destruct (Hnum _ _ (setup_registry_entities data) _ Hv) as [n Hn].
      discriminate Hn.
  - eexists _, _, _. split; [vm_compute; reflexivity |].
    split; [reflexivity |]. split; [reflexivity |].
    split; [reflexivity | discriminate].
  - intros self vm Hm Hg.
    pose proof (native_value_of_virtual self vm Hm Hg) as H.
    split; [exact H |]. rewrite H. discriminate.
Qed.

Lemma setup_wraps_virtual_descriptors_in_number_adapters_witness :
  exists es n,
    async_setup_entry water_valve_data = Ok es
    /\ es !! 2%nat = Some (NumberEntity_ n)
    /\ _mapping n = Virtual watering_duration_mapping
    /\ _device n = device water_valve_data
    /\ native_value n = Raise (AttributeError "dp_id")
    /\ native_value n <> Ok (Some (PyInt 900)).
Proof.
  destruct (proj1 (setup_wraps_virtual_descriptors_in_number_adapters water_valve_data))
    as (es & Hes & Hall & _).
  change (get_mapping_by_device (device water_valve_data))
    with smart_water_valve in Hall.
  unfold smart_water_valve in Hall.
  inversion Hall as [| m1 e1 l1 es1 _ Hall1]; subst.
  inversion Hall1 as [| m2 e2 l2 es2 _ Hall2]; subst.
  inversion Hall2 as [| m3 e3 l3 es3 (n & -> & Hm & Hd & _ & Hv) Hall3]; subst.
  exists (e1 :: e2 :: NumberEntity_ n :: es3), n.
  split; [exact Hes |]. split; [reflexivity |].
  split; [exact Hm |]. split; [exact Hd |].
  exact (Hv _ eq_refl).
Defined.

(* ===================================================================== *)
(** * The virtual adapter *)
(* ===================================================================== *)

(** C6. The module never imports [os] or [json], so both methods of the
    virtual adapter end in [NameError] when they reach the storage
    directory. A virtual entity created with default 900 reads 900;
    activation takes a usable host state first, then raises, without
    reading the storage file; [async_set_native_value] updates the value
    and the published state, then raises, and writes no file. After
    setting 120 and restarting, the entity reads 900, also when a record
    holding 120 is in the storage directory. *)
Theorem virtual_number_storage_raises_name_error
    (float_of_str : string -> option float) :
  let dev := device water_valve_data in
  let created := TuyaBLEVirtualNumber_init dev watering_duration_mapping in
  virtual_native_value created = PyInt 900
  /\ (forall self h,
        async_added_to_hass float_of_str self h
        = (restore_last_state float_of_str self (last_state h), h,
           Raise (NameError "os")))
  /\ (forall self h v,
        let '(self', h', r) := async_set_native_value self h v in
        r = Raise (NameError "os")
        /\ virtual_native_value self' = PyFloatV v
        /\ published h' = Some (PyFloatV v)
        /\ files h' = files h)
  /\ (let '(_, h1, _) := async_set_native_value created fresh_host float_120 in
      let '(restarted, _, r) :=
        async_added_to_hass float_of_str created (restart h1) in
      files h1 = ∅
      /\ r = Raise (NameError "os")
      /\ virtual_native_value restarted = PyInt 900)
  /\ (let survived :=
        {| last_state := None; published := None;
           files := {[ storage_file created := ValueRecord (PyFloatV float_120) ]};
           writable := true; warnings := [] |} in
      let '(restarted, _, r) :=
        async_added_to_hass float_of_str created survived in
      r = Raise (NameError "os")
      /\ virtual_native_value restarted = PyInt 900).
Proof.
  intros dev created.
  split; [reflexivity |]. split; [| split; [| split]].
  - intros self h. reflexivity.
  - intros self h v. cbn. repeat split.
  - cbn. repeat split.
  - cbn. repeat split.
Qed.

(* ===================================================================== *)
(** * Further properties: the mode predicates *)
(* ===================================================================== *)

Section ModePredicates.

Variables (self : TuyaBLENumber) (p : TuyaBLEProductInfo)
          (fb : TuyaBLEFingerbotInfo).
Hypothesis Hfb : fingerbot p = Some fb.

Lemma in_program_mode_eq :
  is_fingerbot_in_program_mode self p =
  match datapoints (_device self) !! fb_mode fb with
  | Some dm => value_eq_int (value dm) 2
  | None => true
  end.
Proof. unfold is_fingerbot_in_program_mode, datapoints_getitem. now rewrite Hfb. Qed.

Lemma not_in_program_mode_eq :
  is_fingerbot_not_in_program_mode self p =
  match datapoints (_device self) !! fb_mode fb with
  | Some dm => negb (value_eq_int (value dm) 2)
  | None => true
  end.
Proof. unfold is_fingerbot_not_in_program_mode, datapoints_getitem. now rewrite Hfb. Qed.

Lemma in_push_mode_eq :
  is_fingerbot_in_push_mode self p =
  match datapoints (_device self) !! fb_mode fb with
  | Some dm => value_eq_int (value dm) 0
  | None => true
  end.
Proof. unfold is_fingerbot_in_push_mode, datapoints_getitem. now rewrite Hfb. Qed.

Lemma repeat_count_available_eq :
  is_fingerbot_repeat_count_available self p =
  if truthy (fb_program fb) then
    match datapoints (_device self) !! fb_mode fb with
    | Some dm => value_eq_int (value dm) 2
    | None => true
    end
    && match datapoints (_device self) !! fb_program fb with
       | Some dp =>
           match value dp with
           | VBytes bs => negb (int_from_bytes (take 2 bs) =? 0xFFFF)
           | VInt _ => true
           end
       | None => true
       end
  else true.
Proof.
  unfold is_fingerbot_repeat_count_available, datapoints_getitem.
  rewrite Hfb. destruct (truthy (fb_program fb)); [| reflexivity].
  destruct (datapoints (_device self) !! fb_mode fb) as [dm|].
  - destruct (value_eq_int (value dm) 2); [| reflexivity].
    destruct (datapoints (_device self) !! fb_program fb) as [dp|]; [| reflexivity].
    destruct (value dp); reflexivity.
  - destruct (datapoints (_device self) !! fb_program fb) as [dp|]; [| reflexivity].
    destruct (value dp); reflexivity.
Qed.

End ModePredicates.

Lemma value_eq_int_exclusive (v : DPValue) (a b : Z) :
  a <> b -> value_eq_int v a = true -> value_eq_int v b = false.
Proof.
  intros Hab. destruct v as [z|bs]; simpl; [| discriminate].
  intros H. apply Z.eqb_eq in H. subst z. apply Z.eqb_neq, Hab.
Qed.

(** X1. Once the mode datapoint of a fingerbot is known, "in program
    mode" and "not in program mode" are complementary: exactly one of the
    two predicates holds, whatever the datapoint's value. *)
Theorem program_mode_predicates_complementary
    (self : TuyaBLENumber) (p : TuyaBLEProductInfo) (fb : TuyaBLEFingerbotInfo)
    (dm : TuyaBLEDataPoint) :
  fingerbot p = Some fb ->
  datapoints (_device self) !! fb_mode fb = Some dm ->
  is_fingerbot_not_in_program_mode self p
  = negb (is_fingerbot_in_program_mode self p)
  /\ (is_fingerbot_in_program_mode self p = true <-> value dm = VInt 2).
Proof.
  intros Hfb Hdm.
  rewrite (in_program_mode_eq self p fb Hfb),
    (not_in_program_mode_eq self p fb Hfb), Hdm.
  split; [reflexivity |].
  destruct (value dm) as [z|bs]; simpl.
  - rewrite Z.eqb_eq. split; [intros ->; reflexivity | intros H; now injection H].
  - split; discriminate.
Qed.

Lemma program_mode_predicates_complementary_witness :
  let self := fingerbot_entity (fingerbot_store 0 [x00; x05; x05]) idle_position_mapping in
  fingerbot fingerbot_plus_product = Some fingerbot_plus_info
  /\ datapoints (_device self) !! fb_mode fingerbot_plus_info = Some (int_datapoint 8 0)
  /\ is_fingerbot_not_in_program_mode self fingerbot_plus_product
     = negb (is_fingerbot_in_program_mode self fingerbot_plus_product).
Proof.
  intros self. split; [reflexivity |]. split; [reflexivity |].
  exact (proj1 (program_mode_predicates_complementary self fingerbot_plus_product
                  fingerbot_plus_info (int_datapoint 8 0) eq_refl eq_refl)).
Defined.

(** X2. A fingerbot in push mode (mode datapoint equal to 0) is not in
    program mode: the push-mode predicate excludes the program-mode
    predicate, implies the not-in-program-mode one and, for a product with
    a program datapoint, makes the repeat count unavailable. *)
Theorem push_mode_excludes_program_mode
    (self : TuyaBLENumber) (p : TuyaBLEProductInfo) (fb : TuyaBLEFingerbotInfo)
    (dm : TuyaBLEDataPoint) :
  fingerbot p = Some fb ->
  datapoints (_device self) !! fb_mode fb = Some dm ->
  is_fingerbot_in_push_mode self p = true ->
  is_fingerbot_in_program_mode self p = false
  /\ is_fingerbot_not_in_program_mode self p = true
  /\ (fb_program fb <> 0 -> is_fingerbot_repeat_count_available self p = false).
Proof.
  intros Hfb Hdm.
  rewrite (in_program_mode_eq self p fb Hfb),
    (not_in_program_mode_eq self p fb Hfb),
    (in_push_mode_eq self p fb Hfb),
    (repeat_count_available_eq self p fb Hfb), Hdm.
  intros Hpush.
  rewrite (value_eq_int_exclusive (value dm) 0 2 ltac:(lia) Hpush).
  split; [reflexivity |]. split; [reflexivity |].
  intros Hprog. unfold truthy.
  destruct (Z.eqb_spec (fb_program fb) 0); [contradiction | reflexivity].
Qed.

Lemma push_mode_excludes_program_mode_witness :
  let self := fingerbot_entity (fingerbot_store 0 [x00; x05; x05]) repeat_count_mapping in
  is_fingerbot_in_push_mode self fingerbot_plus_product = true
  /\ fb_program fingerbot_plus_info <> 0
  /\ is_fingerbot_in_program_mode self fingerbot_plus_product = false
  /\ is_fingerbot_repeat_count_available self fingerbot_plus_product = false.
Proof.
  intros self.
  assert (Hp : fb_program fingerbot_plus_info <> 0) by discriminate.
  pose proof (push_mode_excludes_program_mode self fingerbot_plus_product
                fingerbot_plus_info (int_datapoint 8 0) eq_refl eq_refl eq_refl)
    as (H1 & _ & H3).
  split; [reflexivity |]. split; [exact Hp |]. split; [exact H1 | exact (H3 Hp)].
Defined.

(** X3. While a device has not reported its mode and program datapoints,
    and for a product that is no fingerbot at all, the four availability
    predicates all hold: no control is hidden during the initial sync. *)
Theorem predicates_default_to_available
    (self : TuyaBLENumber) (p : TuyaBLEProductInfo) :
  (fingerbot p = None
   \/ exists fb, fingerbot p = Some fb
        /\ datapoints (_device self) !! fb_mode fb = None
        /\ datapoints (_device self) !! fb_program fb = None) ->
  is_fingerbot_in_program_mode self p = true
  /\ is_fingerbot_not_in_program_mode self p = true
  /\ is_fingerbot_in_push_mode self p = true
  /\ is_fingerbot_repeat_count_available self p = true.
Proof.
  intros [Hn | (fb & Hfb & Hm & Hp)].
  - unfold is_fingerbot_in_program_mode, is_fingerbot_not_in_program_mode,
      is_fingerbot_in_push_mode, is_fingerbot_repeat_count_available.
    rewrite Hn. auto.
  - rewrite (in_program_mode_eq self p fb Hfb),
      (not_in_program_mode_eq self p fb Hfb),
      (in_push_mode_eq self p fb Hfb),
      (repeat_count_available_eq self p fb Hfb), Hm, Hp.
    destruct (truthy (fb_program fb)); auto.
Qed.

Lemma predicates_default_to_available_witness :
  let self := fingerbot_entity no_datapoints repeat_count_mapping in
  (exists fb, fingerbot fingerbot_plus_product = Some fb
     /\ datapoints (_device self) !! fb_mode fb = None
     /\ datapoints (_device self) !! fb_program fb = None)
  /\ is_fingerbot_repeat_count_available self fingerbot_plus_product = true.
Proof.
  intros self.
  assert (H : exists fb, fingerbot fingerbot_plus_product = Some fb
     /\ datapoints (_device self) !! fb_mode fb = None
     /\ datapoints (_device self) !! fb_program fb = None).
  { exists fingerbot_plus_info. repeat split. }
  split; [exact H |].
  exact (proj2 (proj2 (proj2
    (predicates_default_to_available self fingerbot_plus_product (or_intror H))))).
Defined.

(** X4. For a fingerbot with a program datapoint configured, an available
    repeat count implies program mode. For a fingerbot without one
    ([program] is 0) the repeat count is reported available in every mode,
    program mode or not. *)
Theorem repeat_count_available_refines_program_mode
    (self : TuyaBLENumber) (p : TuyaBLEProductInfo) (fb : TuyaBLEFingerbotInfo) :
  fingerbot p = Some fb ->
  (fb_program fb <> 0 ->
   is_fingerbot_repeat_count_available self p = true ->
   is_fingerbot_in_program_mode self p = true)
  /\ (fb_program fb = 0 ->
      is_fingerbot_repeat_count_available self p = true).
Proof.
  intros Hfb.
  rewrite (in_program_mode_eq self p fb Hfb),
    (repeat_count_available_eq self p fb Hfb).
  split.
  - intros Hprog. unfold truthy.
    destruct (Z.eqb_spec (fb_program fb) 0); [contradiction |]. cbn [negb].
    intros H. apply andb_true_iff in H as [H _]. exact H.
  - intros ->. reflexivity.
Qed.

Lemma repeat_count_available_refines_program_mode_witness :
  let p0 := {| fingerbot := Some {| fb_mode := 8; fb_program := 0 |} |} in
  let self := hold_time_entity (fingerbot_store 0 []) in
  fingerbot p0 = Some {| fb_mode := 8; fb_program := 0 |}
  /\ is_fingerbot_in_program_mode self p0 = false
  /\ is_fingerbot_repeat_count_available self p0 = true.
Proof.
  intros p0 self. split; [reflexivity |]. split; [reflexivity |].
  exact (proj2 (repeat_count_available_refines_program_mode self p0
                  {| fb_mode := 8; fb_program := 0 |} eq_refl) eq_refl).
Defined.

(* ===================================================================== *)
(** * Further properties: availability of the fingerbot controls *)
(* ===================================================================== *)

(** X5. The controls of the registry's three fingerbot lists, on any
    fingerbot product with a program datapoint configured whose mode
    datapoint holds the integer [z]: the down and up positions are
    available iff [z] is not 2, the hold time iff [z] is 0, the idle
    position iff [z] is 2, and the repeat count iff [z] is 2 and the
    program payload, when it is a byte sequence, does not start with the
    sentinel 0xFFFF. An entity the host reports unavailable stays so. *)
Theorem fingerbot_controls_by_mode
    (dev : TuyaBLEDevice) (p : TuyaBLEProductInfo) (fb : TuyaBLEFingerbotInfo)
    (dm : TuyaBLEDataPoint) (z : Z) (m : Mapping) :
  fingerbot p = Some fb ->
  fb_program fb <> 0 ->
  datapoints dev !! fb_mode fb = Some dm ->
  value dm = VInt z ->
  m ∈ fingerbot_lists ->
  let e := TuyaBLENumber_init dev p m in
  available e false = false
  /\ available e true =
     if bool_decide (key_of m = "down_position")
        || bool_decide (key_of m = "up_position") then negb (z =? 2)
     else if bool_decide (key_of m = "hold_time") then z =? 0
     else if bool_decide (key_of m = "program_idle_position") then z =? 2
     else
       (z =? 2)
       && match datapoints dev !! fb_program fb with
          | Some dp =>
              match value dp with
              | VBytes bs => negb (int_from_bytes (take 2 bs) =? 0xFFFF)
              | VInt _ => true
              end
          | None => true
          end.
Proof.
  intros Hfb Hprog Hdm Hz Hm e. split; [reflexivity |].
  assert (Ht : truthy (fb_program fb) = true).
  { unfold truthy. apply negb_true_iff, Z.eqb_neq, Hprog. }
  assert (H1 : forall s : TuyaBLENumber, _device s = dev ->
             is_fingerbot_in_program_mode s p = (z =? 2)).
  { intros s Hs. rewrite (in_program_mode_eq s p fb Hfb), Hs, Hdm, Hz. reflexivity. }
  assert (H2 : forall s : TuyaBLENumber, _device s = dev ->
             is_fingerbot_not_in_program_mode s p = negb (z =? 2)).
  { intros s Hs. rewrite (not_in_program_mode_eq s p fb Hfb), Hs, Hdm, Hz. reflexivity. }
  assert (H3 : forall s : TuyaBLENumber, _device s = dev ->
             is_fingerbot_in_push_mode s p = (z =? 0)).
  { intros s Hs. rewrite (in_push_mode_eq s p fb Hfb), Hs, Hdm, Hz. reflexivity. }
  assert (H4 : forall s : TuyaBLENumber, _device s = dev ->
             is_fingerbot_repeat_count_available s p =
             (z =? 2)
             && match datapoints dev !! fb_program fb with
                | Some dp =>
                    match value dp with
                    | VBytes bs => negb (int_from_bytes (take 2 bs) =? 0xFFFF)
                    | VInt _ => true
                    end
                | None => true
                end).
  { intros s Hs. rewrite (repeat_count_available_eq s p fb Hfb), Ht, Hs, Hdm, Hz.
    reflexivity. }
  unfold fingerbot_lists in Hm.
  apply list_elem_of_In in Hm. subst e.
  repeat (destruct Hm as [<- | Hm];
    [ cbv [available TuyaBLENumber_init _mapping _product attr_is_available
           is_available with_is_available with_getter with_setter
           with_coefficient mk_mapping TuyaBLEHoldTimeMapping call_is_available];
      first [ rewrite H1 by reflexivity | rewrite H2 by reflexivity
            | rewrite H3 by reflexivity | rewrite H4 by reflexivity ];
      reflexivity
    | ]).
  destruct Hm.
Qed.

Lemma fingerbot_controls_by_mode_witness :
  let dev := mk_device "szjqr" "blliqpsj" (fingerbot_store 2 [xff; xff; x05]) in
  fb_program fingerbot_plus_info <> 0
  /\ repeat_count_mapping ∈ fingerbot_lists
  /\ idle_position_mapping ∈ fingerbot_lists
  /\ available (TuyaBLENumber_init dev fingerbot_plus_product repeat_count_mapping) true
     = false
  /\ available (TuyaBLENumber_init dev fingerbot_plus_product idle_position_mapping) true
     = true.
Proof.
  intros dev.
  assert (Hp : fb_program fingerbot_plus_info <> 0) by discriminate.
  assert (Hr : repeat_count_mapping ∈ fingerbot_lists).
  { apply list_elem_of_In. vm_compute. tauto. }
  assert (Hi : idle_position_mapping ∈ fingerbot_lists).
  { apply list_elem_of_In. vm_compute. tauto. }
  split; [exact Hp |]. split; [exact Hr |]. split; [exact Hi |]. split.
  - exact (proj2 (fingerbot_controls_by_mode dev fingerbot_plus_product
             fingerbot_plus_info (int_datapoint 8 2) 2 repeat_count_mapping
             eq_refl Hp eq_refl eq_refl Hr)).
  - exact (proj2 (fingerbot_controls_by_mode dev fingerbot_plus_product
             fingerbot_plus_info (int_datapoint 8 2) 2 idle_position_mapping
             eq_refl Hp eq_refl eq_refl Hi)).
Defined.

(* ===================================================================== *)
(** * Further properties: writing and reading back a direct datapoint *)
(* ===================================================================== *)

Lemma scaled_exact_13 (c : float) (k : Z) :
  c = PyFloat.one \/ c = PyFloat.ten ->
  -8192 <= k < 8192 ->
  scaled_exact c k = true.
Proof.
  intros Hc Hk.
  destruct (Z.lt_ge_cases k 0) as [Hneg | Hpos]; destruct Hc as [-> | ->].
  - apply (check_bits_sound (scaled_exact PyFloat.one) 13 (-1)).
    + vm_compute. reflexivity.
    + change (2 ^ Z.of_nat 13) with 8192. lia.
  - apply (check_bits_sound (scaled_exact PyFloat.ten) 13 (-1)).
    + vm_compute. reflexivity.
    + change (2 ^ Z.of_nat 13) with 8192. lia.
  - apply (check_bits_sound (scaled_exact PyFloat.one) 13 0).
    + vm_compute. reflexivity.
    + change (2 ^ Z.of_nat 13) with 8192. lia.
  - apply (check_bits_sound (scaled_exact PyFloat.ten) 13 0).
    + vm_compute. reflexivity.
    + change (2 ^ Z.of_nat 13) with 8192. lia.
Qed.

Section DirectWrite.

Variables (self : TuyaBLENumber) (m : TuyaBLENumberMapping).
Hypothesis Hm : _mapping self = Direct m.
Hypothesis Hs : setter m = None.

(** The call without a custom setter, step by step. *)
Lemma set_native_value_direct (v : float) :
  set_native_value self v =
  let* n := PyFloat.to_int (PyFloat.mul v (coefficient m)) in
  Ok ((get_or_create (datapoints (_device self)) (dp_id m) DT_VALUE (VInt n)).1,
      [{| task_dp := dp_id m; task_value := VInt n |}]).
Proof.
  unfold set_native_value. rewrite Hm.
  cbn [attr_setter attr_dp_id attr_coefficient obind]. rewrite Hs.
  destruct (PyFloat.to_int (PyFloat.mul v (coefficient m))) as [n|e];
    cbn [obind]; [| reflexivity].
  destruct (get_or_create _ _ _ _). reflexivity.
Qed.

(** The store once the write scheduled for [n] has run. *)
Lemma written_store_lookup (n : Z) :
  let dps := datapoints (_device self) in
  let dps' := (get_or_create dps (dp_id m) DT_VALUE (VInt n)).1 in
  let final := fold_left run_task [{| task_dp := dp_id m; task_value := VInt n |}] dps' in
  (forall j, j <> dp_id m -> final !! j = dps !! j)
  /\ final !! dp_id m
     = Some {| id := match dps !! dp_id m with Some dp => id dp | None => dp_id m end;
               type := match dps !! dp_id m with Some dp => type dp | None => DT_VALUE end;
               value := VInt n |}.
Proof.
  intros dps dps' final. subst final dps'. unfold get_or_create.
  cbn [fold_left]. unfold run_task. cbn [task_dp task_value].
  destruct (dps !! dp_id m) as [dp|] eqn:E; cbn [fst].
  - rewrite E. split.
    + intros j Hj. apply lookup_insert_ne. congruence.
    + apply lookup_insert_eq.
  - rewrite lookup_insert_eq. split.
    + intros j Hj. rewrite !lookup_insert_ne by congruence. reflexivity.
    + rewrite lookup_insert_eq. reflexivity.
Qed.

End DirectWrite.

(** X6. Writing through a direct adapter and reading back compose: when
    [set_native_value v] returns, it has scheduled one write, of
    [n = int(v * coefficient)]; once the write has run the datapoint holds
    [n], whatever it held before, and [native_value] is [n / coefficient]. *)
Theorem set_then_native_value
    (self : TuyaBLENumber) (m : TuyaBLENumberMapping) (v : float)
    (dps' : TuyaBLEDataPoints) (ts : list Task) :
  _mapping self = Direct m ->
  getter m = None ->
  setter m = None ->
  set_native_value self v = Ok (dps', ts) ->
  exists n,
    PyFloat.to_int (PyFloat.mul v (coefficient m)) = Ok n
    /\ ts = [{| task_dp := dp_id m; task_value := VInt n |}]
    /\ (exists dp, fold_left run_task ts dps' !! dp_id m = Some dp
                   /\ value dp = VInt n)
    /\ native_value (with_datapoints self (fold_left run_task ts dps'))
       = let* r := PyFloat.int_truediv n (coefficient m) in Ok (Some (PyFloatV r)).
Proof.
  intros Hm Hg Hs Hset.
  rewrite (set_native_value_direct self m Hm Hs) in Hset.
  destruct (PyFloat.to_int (PyFloat.mul v (coefficient m))) as [n|e] eqn:En;
    cbn [obind] in Hset; [| discriminate].
  injection Hset as <- <-.
  destruct (written_store_lookup self m n) as [_ Hl].
  exists n. split; [reflexivity |]. split; [reflexivity |]. split.
  - eexists. split; [exact Hl | reflexivity].
  - unfold native_value, datapoints_getitem.
    cbn [with_datapoints _mapping _device datapoints]. rewrite Hm.
    cbn [attr_getter attr_dp_id attr_coefficient obind]. rewrite Hg, Hl.
    cbn [value value_truediv obind].
    destruct (PyFloat.int_truediv n (coefficient m)); reflexivity.
Qed.

Lemma set_then_native_value_witness :
  let self := hold_time_entity no_datapoints in
  let dps' := <[10 := int_datapoint 10 3]> ∅ in
  let ts := [{| task_dp := 10; task_value := VInt 3 |}] in
  set_native_value self float_0375 = Ok (dps', ts)
  /\ exists n,
    PyFloat.to_int (PyFloat.mul float_0375 PyFloat.ten) = Ok n
    /\ ts = [{| task_dp := 10; task_value := VInt n |}]
    /\ (exists dp, fold_left run_task ts dps' !! 10 = Some dp /\ value dp = VInt n)
    /\ native_value (with_datapoints self (fold_left run_task ts dps'))
       = let* r := PyFloat.int_truediv n PyFloat.ten in Ok (Some (PyFloatV r)).
Proof.
  intros self dps' ts.
  assert (H : set_native_value self float_0375 = Ok (dps', ts)) by reflexivity.
  split; [exact H |].
  exact (set_then_native_value self hold_time_mapping float_0375 dps' ts
           eq_refl eq_refl eq_refl H).
Defined.

(** X7. For a control that scales by 1.0 or by 10.0, every value [k /
    coefficient] with [k] an integer in [-8192, 8191] is kept
    exactly: setting it writes the integer [k], and reading back
    after the write returns the value that was set. *)
Theorem scaled_value_round_trip
    (self : TuyaBLENumber) (m : TuyaBLENumberMapping) (k : Z) :
  _mapping self = Direct m ->
  getter m = None ->
  setter m = None ->
  coefficient m = PyFloat.one \/ coefficient m = PyFloat.ten ->
  -8192 <= k < 8192 ->
  exists (v : float) (dps' : TuyaBLEDataPoints),
    PyFloat.int_truediv k (coefficient m) = Ok v
    /\ set_native_value self v
       = Ok (dps', [{| task_dp := dp_id m; task_value := VInt k |}])
    /\ native_value
         (with_datapoints self
            (fold_left run_task [{| task_dp := dp_id m; task_value := VInt k |}] dps'))
       = Ok (Some (PyFloatV v)).
Proof.
  intros Hm Hg Hs Hc Hk.
  pose proof (scaled_exact_13 (coefficient m) k Hc Hk) as He.
  unfold scaled_exact in He.
  destruct (PyFloat.int_truediv k (coefficient m)) as [v|] eqn:Ev; [| discriminate].
  destruct (PyFloat.to_int (PyFloat.mul v (coefficient m))) as [n|] eqn:En;
    [| discriminate].
  apply Z.eqb_eq in He. subst n.
  exists v, (get_or_create (datapoints (_device self)) (dp_id m) DT_VALUE (VInt k)).1.
  split; [reflexivity |].
  assert (Hset : set_native_value self v
                 = Ok ((get_or_create (datapoints (_device self)) (dp_id m)
                          DT_VALUE (VInt k)).1,
                       [{| task_dp := dp_id m; task_value := VInt k |}])).
  { rewrite (set_native_value_direct self m Hm Hs), En. reflexivity. }
  split; [exact Hset |].
  destruct (written_store_lookup self m k) as [_ Hl].
  unfold native_value, datapoints_getitem.
  cbn [with_datapoints _mapping _device datapoints]. rewrite Hm.
  cbn [attr_getter attr_dp_id attr_coefficient obind]. rewrite Hg, Hl.
  cbn [value value_truediv obind]. rewrite Ev. reflexivity.
Qed.

Lemma scaled_value_round_trip_witness :
  let self := hold_time_entity no_datapoints in
  (coefficient hold_time_mapping = PyFloat.one
   \/ coefficient hold_time_mapping = PyFloat.ten)
  /\ -8192 <= 25 < 8192
  /\ exists (v : float) (dps' : TuyaBLEDataPoints),
    PyFloat.int_truediv 25 (coefficient hold_time_mapping) = Ok v
    /\ set_native_value self v
       = Ok (dps', [{| task_dp := 10; task_value := VInt 25 |}])
    /\ native_value
         (with_datapoints self
            (fold_left run_task [{| task_dp := 10; task_value := VInt 25 |}] dps'))
       = Ok (Some (PyFloatV v)).
Proof.
  intros self.
  assert (Hc : coefficient hold_time_mapping = PyFloat.one
               \/ coefficient hold_time_mapping = PyFloat.ten)
    by (right; reflexivity).
  assert (Hk : -8192 <= 25 < 8192) by lia.
  split; [exact Hc |]. split; [exact Hk |].
  exact (scaled_value_round_trip self hold_time_mapping 25
           eq_refl eq_refl eq_refl Hc Hk).
Defined.

(** X8. [set_native_value] without a custom setter touches one datapoint
    only: every other datapoint of the store is the same after the call
    and after the scheduled write has run; the adapter's own datapoint
    keeps its id and type if it existed and is created with type
    [DT_VALUE] if it did not. *)
Theorem set_native_value_frame
    (self : TuyaBLENumber) (m : TuyaBLENumberMapping) (v : float)
    (dps' : TuyaBLEDataPoints) (ts : list Task) :
  _mapping self = Direct m ->
  setter m = None ->
  set_native_value self v = Ok (dps', ts) ->
  let dps := datapoints (_device self) in
  let final := fold_left run_task ts dps' in
  (forall j, j <> dp_id m -> dps' !! j = dps !! j /\ final !! j = dps !! j)
  /\ (forall dp, dps !! dp_id m = Some dp ->
        dps' = dps
        /\ exists dp', final !! dp_id m = Some dp'
                       /\ id dp' = id dp /\ type dp' = type dp)
  /\ (dps !! dp_id m = None ->
        exists dp', final !! dp_id m = Some dp'
                    /\ id dp' = dp_id m /\ type dp' = DT_VALUE).
Proof.
  intros Hm Hs Hset dps final.
  rewrite (set_native_value_direct self m Hm Hs) in Hset.
  destruct (PyFloat.to_int (PyFloat.mul v (coefficient m))) as [n|e] eqn:En;
    cbn [obind] in Hset; [| discriminate].
  injection Hset as <- <-.
  destruct (written_store_lookup self m n) as [Hother Hown].
  fold dps in Hother, Hown. fold final in Hother, Hown.
  split; [| split].
  - intros j Hj. split; [| apply Hother, Hj].
    unfold get_or_create. fold dps.
    destruct (dps !! dp_id m); cbn [fst]; [reflexivity |].
    apply lookup_insert_ne. congruence.
  - intros dp Hdp. rewrite Hdp in Hown. split.
    + unfold get_or_create. fold dps. rewrite Hdp. reflexivity.
    + eexists. split; [exact Hown |]. split; reflexivity.
  - intros Hdp. rewrite Hdp in Hown.
    eexists. split; [exact Hown |]. split; reflexivity.
Qed.

Lemma set_native_value_frame_witness :
  let self := hold_time_entity (fingerbot_store 0 [x00; x05; x05]) in
  let dps' := <[10 := int_datapoint 10 3]> (fingerbot_store 0 [x00; x05; x05]) in
  let ts := [{| task_dp := 10; task_value := VInt 3 |}] in
  set_native_value self float_0375 = Ok (dps', ts)
  /\ fold_left run_task ts dps' !! 121 = Some (raw_datapoint 121 [x00; x05; x05])
  /\ fold_left run_task ts dps' !! 8 = Some (int_datapoint 8 0).
Proof.
  intros self dps' ts.
  assert (H : set_native_value self float_0375 = Ok (dps', ts)) by reflexivity.
  pose proof (set_native_value_frame self hold_time_mapping float_0375 dps' ts
                eq_refl eq_refl H) as [Hf _].
  split; [exact H |]. split.
  - exact (proj2 (Hf 121 ltac:(discriminate))).
  - exact (proj2 (Hf 8 ltac:(discriminate))).
Defined.

(* ===================================================================== *)
(** * Further properties: the two fields of the program payload *)
(* ===================================================================== *)

Section ProgramWrite.

Variables (self : TuyaBLENumber) (p : TuyaBLEProductInfo)
          (fb : TuyaBLEFingerbotInfo) (dp : TuyaBLEDataPoint) (bs : bytes).
Hypothesis Hfb : fingerbot p = Some fb.
Hypothesis Hprog : fb_program fb <> 0.
Hypothesis Hdp : datapoints (_device self) !! fb_program fb = Some dp.
Hypothesis Hbs : value dp = VBytes bs.

(** The entity once a payload [w] has been written to the program
    datapoint. *)
Lemma after_program_write (w : bytes) :
  let self' := after_tasks self [{| task_dp := fb_program fb; task_value := VBytes w |}] in
  datapoints (_device self') !! fb_program fb
  = Some {| id := id dp; type := type dp; value := VBytes w |}
  /\ forall j, j <> fb_program fb ->
       datapoints (_device self') !! j = datapoints (_device self) !! j.
Proof.
  intros self'. unfold self', after_tasks. cbn. split.
  - apply run_task_lookup, Hdp.
  - intros j Hj. unfold run_task. cbn. rewrite Hdp.
    apply lookup_insert_ne. congruence.
Qed.

(** The write of the idle-position setter on a payload that has a byte at
    index 2. *)
Lemma set_position_written (v : float) (n : Z) :
  PyFloat.to_int v = Ok n ->
  0 <= n <= 255 ->
  (3 <= length bs)%nat ->
  set_fingerbot_program_position self p v
  = Ok [{| task_dp := fb_program fb;
           task_value := VBytes (<[2%nat := byte_of_Z n]> bs) |}].
Proof.
  intros Hn Hr Hl.
  rewrite (set_position_eq self p fb dp bs Hfb Hprog Hdp Hbs), Hn.
  cbn [obind]. unfold bytearray_setitem.
  destruct (Z.ltb_spec n 0); [lia |].
  destruct (Z.ltb_spec 255 n); [lia |]. cbn [orb].
  destruct (Nat.ltb_spec 2 (length bs)); [reflexivity | lia].
Qed.

End ProgramWrite.

Lemma big_endian_2_third (n : Z) (rest : bytes) :
  (big_endian 2 n ++ rest) !! 2%nat = rest !! 0%nat.
Proof.
  rewrite lookup_app_r by (rewrite length_big_endian; lia).
  rewrite length_big_endian. reflexivity.
Qed.

(** X9. Idle position round trip: on a program payload of at least 3
    bytes, setting the idle position to an integer [n] in [0, 255] and
    running the write makes the idle-position getter return [n]. *)
Theorem position_round_trip
    (self : TuyaBLENumber) (p : TuyaBLEProductInfo) (fb : TuyaBLEFingerbotInfo)
    (dp : TuyaBLEDataPoint) (bs : bytes) (n : Z) :
  fingerbot p = Some fb ->
  fb_program fb <> 0 ->
  datapoints (_device self) !! fb_program fb = Some dp ->
  value dp = VBytes bs ->
  (3 <= length bs)%nat ->
  0 <= n <= 255 ->
  exists (f : float) (w : bytes),
    PyFloat.of_int n = Ok f
    /\ PyFloat.to_int f = Ok n
    /\ set_fingerbot_program_position self p f
       = Ok [{| task_dp := fb_program fb; task_value := VBytes w |}]
    /\ get_fingerbot_program_position
         (after_tasks self [{| task_dp := fb_program fb; task_value := VBytes w |}]) p
       = Ok (Some (PyFloatV f)).
Proof.
  intros Hfb Hprog Hdp Hbs Hl Hn.
  destruct (float_exact_elim n (float_exact_uint16 n ltac:(lia)))
    as (f & Hf & Hint & Hmul).
  exists f, (<[2%nat := byte_of_Z n]> bs).
  split; [exact Hf |]. split; [exact Hint |]. split.
  - exact (set_position_written self p fb dp bs Hfb Hprog Hdp Hbs f n Hint Hn Hl).
  - destruct (after_program_write self fb dp Hdp (<[2%nat := byte_of_Z n]> bs))
      as [Hdp' _].
    rewrite (get_position_eq _ p fb _ _ Hfb Hprog Hdp' eq_refl).
    unfold bytes_getitem. rewrite list_lookup_insert_eq by lia.
    cbn [obind]. rewrite byte_to_of_Z by lia. rewrite Hmul. reflexivity.
Qed.

Lemma position_round_trip_witness :
  let self := fingerbot_entity (fingerbot_store 2 [x00; x05; x05; xaa])
                idle_position_mapping in
  (3 <= length [x00; x05; x05; xaa])%nat
  /\ 0 <= 37 <= 255
  /\ exists (f : float) (w : bytes),
    PyFloat.of_int 37 = Ok f
    /\ PyFloat.to_int f = Ok 37
    /\ set_fingerbot_program_position self fingerbot_plus_product f
       = Ok [{| task_dp := 121; task_value := VBytes w |}]
    /\ get_fingerbot_program_position
         (after_tasks self [{| task_dp := 121; task_value := VBytes w |}])
         fingerbot_plus_product
       = Ok (Some (PyFloatV f)).
Proof.
  intros self.
  assert (Hl : (3 <= length [x00; x05; x05; xaa])%nat) by (simpl; lia).
  assert (Hn : 0 <= 37 <= 255) by lia.
  split; [exact Hl |]. split; [exact Hn |].
  exact (position_round_trip self fingerbot_plus_product fingerbot_plus_info
           (raw_datapoint 121 [x00; x05; x05; xaa]) [x00; x05; x05; xaa] 37
           eq_refl ltac:(discriminate) eq_refl eq_refl Hl Hn).
Defined.

(** X10. The two fields of the program payload are independent: a write
    of the idle-position setter leaves the reading of the repeat count as
    it was, and a write of the repeat-count setter leaves the reading of
    the idle position as it was (on a payload shorter than 3 bytes the
    idle-position getter raises before and after). *)
Theorem program_fields_independent
    (self : TuyaBLENumber) (p : TuyaBLEProductInfo) (fb : TuyaBLEFingerbotInfo)
    (dp : TuyaBLEDataPoint) (bs : bytes) (v : float) (n : Z) :
  fingerbot p = Some fb ->
  fb_program fb <> 0 ->
  datapoints (_device self) !! fb_program fb = Some dp ->
  value dp = VBytes bs ->
  PyFloat.to_int v = Ok n ->
  (0 <= n <= 255 -> (3 <= length bs)%nat ->
   forall ts,
     set_fingerbot_program_position self p v = Ok ts ->
     get_fingerbot_program_repeat_count (after_tasks self ts) p
     = get_fingerbot_program_repeat_count self p)
  /\ (0 <= n <= 0xFFFF ->
   forall ts,
     set_fingerbot_program_repeat_count self p v = Ok ts ->
     get_fingerbot_program_position (after_tasks self ts) p
     = get_fingerbot_program_position self p).
Proof.
  intros Hfb Hprog Hdp Hbs Hn. split.
  - intros Hr Hl ts Hts.
    rewrite (set_position_written self p fb dp bs Hfb Hprog Hdp Hbs v n Hn Hr Hl)
      in Hts.
    assert (E : [{| task_dp := fb_program fb;
                    task_value := VBytes (<[2%nat := byte_of_Z n]> bs) |}] = ts)
      by congruence.
    subst ts.
    destruct (after_program_write self fb dp Hdp (<[2%nat := byte_of_Z n]> bs))
      as [Hdp' _].
    rewrite (get_repeat_count_eq _ p fb _ _ Hfb Hprog Hdp' eq_refl),
      (get_repeat_count_eq self p fb dp bs Hfb Hprog Hdp Hbs).
    rewrite take_insert_ge by lia. reflexivity.
  - intros Hr ts Hts.
    rewrite (set_repeat_count_written self p fb dp bs Hfb Hprog Hdp Hbs v n Hn Hr)
      in Hts.
    assert (E : [{| task_dp := fb_program fb;
                    task_value := VBytes (big_endian 2 n ++ drop 2 bs) |}] = ts)
      by congruence.
    subst ts.
    destruct (after_program_write self fb dp Hdp (big_endian 2 n ++ drop 2 bs))
      as [Hdp' _].
    rewrite (get_position_eq _ p fb _ _ Hfb Hprog Hdp' eq_refl),
      (get_position_eq self p fb dp bs Hfb Hprog Hdp Hbs).
    unfold bytes_getitem. rewrite big_endian_2_third, lookup_drop.
    reflexivity.
Qed.

Lemma program_fields_independent_witness :
  let self := fingerbot_entity (fingerbot_store 2 [x00; x05; x05; xaa])
                repeat_count_mapping in
  PyFloat.to_int float_37 = Ok 37
  /\ 0 <= 37 <= 255
  /\ (3 <= length [x00; x05; x05; xaa])%nat
  /\ get_fingerbot_program_repeat_count
       (after_tasks self
          [{| task_dp := 121; task_value := VBytes [x00; x05; x25; xaa] |}])
       fingerbot_plus_product
     = get_fingerbot_program_repeat_count self fingerbot_plus_product
  /\ get_fingerbot_program_position
       (after_tasks self
          [{| task_dp := 121; task_value := VBytes [x00; x25; x05; xaa] |}])
       fingerbot_plus_product
     = get_fingerbot_program_position self fingerbot_plus_product.
Proof.
  intros self.
  assert (Hi : PyFloat.to_int float_37 = Ok 37) by reflexivity.
  assert (Hr : 0 <= 37 <= 255) by lia.
  assert (Hl : (3 <= length [x00; x05; x05; xaa])%nat) by (simpl; lia).
  pose proof (program_fields_independent self fingerbot_plus_product
    fingerbot_plus_info (raw_datapoint 121 [x00; x05; x05; xaa])
    [x00; x05; x05; xaa] float_37 37 eq_refl ltac:(discriminate) eq_refl
    eq_refl Hi) as [H1 H2].
  split; [exact Hi |]. split; [exact Hr |]. split; [exact Hl |]. split.
  - exact (H1 Hr Hl _ eq_refl).
  - exact (H2 ltac:(lia) _ eq_refl).
Defined.

(** X11. The repeat-count setter and the availability of the control: for
    a product whose mode and program datapoints differ, after the write of
    an integer [n] up to 0xFFFE has run the repeat count is available
    exactly when the fingerbot is in program mode, and after the write of
    0xFFFF, the sentinel, it is unavailable in every mode. *)
Theorem repeat_count_write_and_availability
    (self : TuyaBLENumber) (p : TuyaBLEProductInfo) (fb : TuyaBLEFingerbotInfo)
    (dp : TuyaBLEDataPoint) (bs : bytes) (v : float) (n : Z) :
  fingerbot p = Some fb ->
  fb_program fb <> 0 ->
  fb_mode fb <> fb_program fb ->
  datapoints (_device self) !! fb_program fb = Some dp ->
  value dp = VBytes bs ->
  PyFloat.to_int v = Ok n ->
  0 <= n <= 0xFFFF ->
  exists ts,
    set_fingerbot_program_repeat_count self p v = Ok ts
    /\ is_fingerbot_repeat_count_available (after_tasks self ts) p
       = if n =? 0xFFFF then false else is_fingerbot_in_program_mode self p.
Proof.
  intros Hfb Hprog Hne Hdp Hbs Hn Hr.
  eexists. split.
  { exact (set_repeat_count_written self p fb dp bs Hfb Hprog Hdp Hbs v n Hn Hr). }
  destruct (after_program_write self fb dp Hdp (big_endian 2 n ++ drop 2 bs))
    as [Hdp' Hother].
  rewrite (repeat_count_available_eq _ p fb Hfb), Hdp',
    (in_program_mode_eq self p fb Hfb), (Hother _ Hne).
  unfold truthy. destruct (Z.eqb_spec (fb_program fb) 0); [contradiction |].
  cbn [negb value].
  rewrite take_app_length' by (symmetry; apply length_big_endian).
  rewrite int_from_big_endian by (change (256 ^ Z.of_nat 2) with 65536; lia).
  destruct (n =? 65535); cbn [negb]; [apply andb_false_r | apply andb_true_r].
Qed.

Lemma repeat_count_write_and_availability_witness :
  let self := fingerbot_entity (fingerbot_store 2 [xff; xff; x05])
                repeat_count_mapping in
  fb_mode fingerbot_plus_info <> fb_program fingerbot_plus_info
  /\ PyFloat.to_int float_1000 = Ok 1000
  /\ 0 <= 1000 <= 0xFFFF
  /\ is_fingerbot_repeat_count_available self fingerbot_plus_product = false
  /\ exists ts,
    set_fingerbot_program_repeat_count self fingerbot_plus_product float_1000 = Ok ts
    /\ is_fingerbot_repeat_count_available (after_tasks self ts) fingerbot_plus_product
       = true.
Proof.
  intros self.
  assert (Hne : fb_mode fingerbot_plus_info <> fb_program fingerbot_plus_info)
    by discriminate.
  assert (Hi : PyFloat.to_int float_1000 = Ok 1000) by reflexivity.
  assert (Hr : 0 <= 1000 <= 0xFFFF) by lia.
  split; [exact Hne |]. split; [exact Hi |]. split; [exact Hr |].
  split; [reflexivity |].
  exact (repeat_count_write_and_availability self fingerbot_plus_product
           fingerbot_plus_info (raw_datapoint 121 [xff; xff; x05])
           [xff; xff; x05] float_1000 1000 eq_refl ltac:(discriminate) Hne
           eq_refl eq_refl Hi Hr).
Defined.

(** X12. The repeat-count setter rejects what two bytes cannot hold: on a
    byte payload, a value whose integer part is negative or above 0xFFFF
    raises [OverflowError], as do the infinities, and NaN raises
    [ValueError]; no write is scheduled, and [set_native_value] of an
    adapter with this setter ends the same way. *)
Theorem repeat_count_setter_rejects
    (self : TuyaBLENumber) (m : TuyaBLENumberMapping) (fb : TuyaBLEFingerbotInfo)
    (dp : TuyaBLEDataPoint) (bs : bytes) :
  _mapping self = Direct m ->
  setter m = Some ref_set_fingerbot_program_repeat_count ->
  fingerbot (_product self) = Some fb ->
  fb_program fb <> 0 ->
  datapoints (_device self) !! fb_program fb = Some dp ->
  value dp = VBytes bs ->
  (forall v n,
     PyFloat.to_int v = Ok n -> n < 0 \/ 0xFFFF < n ->
     set_fingerbot_program_repeat_count self (_product self) v = Raise OverflowError
     /\ set_native_value self v = Raise OverflowError)
  /\ (forall s,
     set_fingerbot_program_repeat_count self (_product self) (S754_infinity s)
     = Raise OverflowError
     /\ set_native_value self (S754_infinity s) = Raise OverflowError)
  /\ set_fingerbot_program_repeat_count self (_product self) S754_nan
     = Raise ValueError
  /\ set_native_value self S754_nan = Raise ValueError.
Proof.
  intros Hm Hs Hfb Hprog Hdp Hbs.
  assert (Hnv : forall v, set_native_value self v =
                  let* ts := set_fingerbot_program_repeat_count self (_product self) v in
                  Ok (datapoints (_device self), ts)).
  { intros v. unfold set_native_value. rewrite Hm. cbn [attr_setter].
    rewrite Hs. reflexivity. }
  assert (Hset := set_repeat_count_eq self (_product self) fb dp bs Hfb Hprog Hdp Hbs).
  split; [| split; [| split]].
  - intros v n Hn Hr.
    assert (H : set_fingerbot_program_repeat_count self (_product self) v
                = Raise OverflowError).
    { rewrite Hset, Hn. cbn [obind]. unfold int_to_bytes.
      destruct (Z.ltb_spec n 0); [reflexivity |].
      change (256 ^ Z.of_nat 2) with 65536.
      destruct (Z.leb_spec 65536 n); [reflexivity | lia]. }
    split; [exact H |]. rewrite Hnv, H. reflexivity.
  - intros s.
    assert (H : set_fingerbot_program_repeat_count self (_product self)
                  (S754_infinity s) = Raise OverflowError)
      by (rewrite Hset; reflexivity).
    split; [exact H |]. rewrite Hnv, H. reflexivity.
  - rewrite Hset. reflexivity.
  - rewrite Hnv, Hset. reflexivity.
Qed.

Lemma repeat_count_setter_rejects_witness :
  let self := fingerbot_entity (fingerbot_store 2 [x00; x05; x05])
                repeat_count_mapping in
  PyFloat.to_int float_70000 = Ok 70000
  /\ (70000 < 0 \/ 0xFFFF < 70000)
  /\ set_native_value self float_70000 = Raise OverflowError
  /\ set_native_value self float_nan = Raise ValueError.
Proof.
  intros self.
  assert (Hi : PyFloat.to_int float_70000 = Ok 70000) by reflexivity.
  assert (Hr : 70000 < 0 \/ 0xFFFF < 70000) by (right; lia).
  pose proof (repeat_count_setter_rejects self
    (mk_mapping 121 program_repeats_count_description
       <| with_is_available ref_is_fingerbot_repeat_count_available
       <| with_getter ref_get_fingerbot_program_repeat_count
       <| with_setter ref_set_fingerbot_program_repeat_count)
    fingerbot_plus_info (raw_datapoint 121 [x00; x05; x05]) [x00; x05; x05]
    eq_refl eq_refl eq_refl ltac:(discriminate) eq_refl eq_refl)
    as (H1 & _ & _ & H4).
  split; [exact Hi |]. split; [exact Hr |]. split.
  - exact (proj2 (H1 float_70000 70000 Hi Hr)).
  - exact H4.
Defined.

(** X13. The idle-position setter rejects what one byte cannot hold: on a
    payload of at least 3 bytes, a value whose integer part is negative or
    above 255 raises [ValueError]; on any byte payload the infinities
    raise [OverflowError] and NaN raises [ValueError]. No write is
    scheduled. *)
Theorem position_setter_rejects
    (self : TuyaBLENumber) (p : TuyaBLEProductInfo) (fb : TuyaBLEFingerbotInfo)
    (dp : TuyaBLEDataPoint) (bs : bytes) :
  fingerbot p = Some fb ->
  fb_program fb <> 0 ->
  datapoints (_device self) !! fb_program fb = Some dp ->
  value dp = VBytes bs ->
  (forall v n,
     (3 <= length bs)%nat ->
     PyFloat.to_int v = Ok n -> n < 0 \/ 255 < n ->
     set_fingerbot_program_position self p v = Raise ValueError)
  /\ (forall s,
     set_fingerbot_program_position self p (S754_infinity s) = Raise OverflowError)
  /\ set_fingerbot_program_position self p S754_nan = Raise ValueError.
Proof.
  intros Hfb Hprog Hdp Hbs.
  assert (Hset := set_position_eq self p fb dp bs Hfb Hprog Hdp Hbs).
  split; [| split].
  - intros v n _ Hn Hr. rewrite Hset, Hn. cbn [obind].
    unfold bytearray_setitem.
    destruct (Z.ltb_spec n 0); [reflexivity |].
    destruct (Z.ltb_spec 255 n); [reflexivity | lia].
  - intros s. rewrite Hset. reflexivity.
  - rewrite Hset. reflexivity.
Qed.

Lemma position_setter_rejects_witness :
  let self := fingerbot_entity (fingerbot_store 2 [x00; x05; x05])
                idle_position_mapping in
  (3 <= length [x00; x05; x05])%nat
  /\ PyFloat.to_int float_300 = Ok 300
  /\ (300 < 0 \/ 255 < 300)
  /\ set_fingerbot_program_position self fingerbot_plus_product float_300
     = Raise ValueError.
Proof.
  intros self.
  assert (Hl : (3 <= length [x00; x05; x05])%nat) by (simpl; lia).
  assert (Hi : PyFloat.to_int float_300 = Ok 300) by reflexivity.
  assert (Hr : 300 < 0 \/ 255 < 300) by (right; lia).
  split; [exact Hl |]. split; [exact Hi |]. split; [exact Hr |].
  exact (proj1 (position_setter_rejects self fingerbot_plus_product
                  fingerbot_plus_info (raw_datapoint 121 [x00; x05; x05])
                  [x00; x05; x05] eq_refl ltac:(discriminate) eq_refl eq_refl)
           float_300 300 Hl Hi Hr).
Defined.

(** X14. What the repeat-count getter decodes: on a payload of two or
    more bytes, 256 times the first byte plus the second; on a one-byte
    payload that byte alone, as the low byte; on the empty payload 0. The
    result is the float of that integer, which lies in [0, 0xFFFF]. *)
Theorem repeat_count_decoding
    (self : TuyaBLENumber) (p : TuyaBLEProductInfo) (fb : TuyaBLEFingerbotInfo)
    (dp : TuyaBLEDataPoint) (bs : bytes) :
  fingerbot p = Some fb ->
  fb_program fb <> 0 ->
  datapoints (_device self) !! fb_program fb = Some dp ->
  value dp = VBytes bs ->
  0 <= decoded_repeat_count bs <= 0xFFFF
  /\ exists f,
       PyFloat.of_int (decoded_repeat_count bs) = Ok f
       /\ PyFloat.to_int f = Ok (decoded_repeat_count bs)
       /\ get_fingerbot_program_repeat_count self p = Ok (Some (PyFloatV f)).
Proof.
  intros Hfb Hprog Hdp Hbs.
  assert (Hd : int_from_bytes (take 2 bs) = decoded_repeat_count bs).
  { unfold int_from_bytes, decoded_repeat_count.
    destruct bs as [|a [|b bs']]; cbn [firstn fold_left];
      rewrite ?take_0; cbn [fold_left]; lia. }
  assert (Hr : 0 <= decoded_repeat_count bs <= 0xFFFF).
  { destruct bs as [|a [|b bs']]; cbn [decoded_repeat_count]; unfold byte_to_Z.
    - lia.
    - pose proof (Byte.to_N_bounded a). lia.
    - pose proof (Byte.to_N_bounded a). pose proof (Byte.to_N_bounded b). lia. }
  split; [exact Hr |].
  destruct (float_exact_elim _
              (float_exact_uint16 (decoded_repeat_count bs) ltac:(lia)))
    as (f & Hf & Hint & Hmul).
  exists f. split; [exact Hf |]. split; [exact Hint |].
  rewrite (get_repeat_count_eq self p fb dp bs Hfb Hprog Hdp Hbs), Hd, Hmul.
  reflexivity.
Qed.

Lemma repeat_count_decoding_witness :
  let self := fingerbot_entity (fingerbot_store 2 [x05]) repeat_count_mapping in
  decoded_repeat_count [x05] = 5
  /\ exists f,
       PyFloat.of_int (decoded_repeat_count [x05]) = Ok f
       /\ PyFloat.to_int f = Ok (decoded_repeat_count [x05])
       /\ get_fingerbot_program_repeat_count self fingerbot_plus_product
          = Ok (Some (PyFloatV f)).
Proof.
  intros self. split; [reflexivity |].
  exact (proj2 (repeat_count_decoding self fingerbot_plus_product
                  fingerbot_plus_info (raw_datapoint 121 [x05]) [x05]
                  eq_refl ltac:(discriminate) eq_refl eq_refl)).
Defined.

(** X15. A control with custom accessors on a product or device that has
    no usable program datapoint (no fingerbot descriptor, no program
    datapoint configured, the datapoint not reported yet, or its value not
    a byte sequence): [native_value] is [None], not the descriptor's
    minimum, and [set_native_value] accepts every value, NaN included,
    schedules nothing and leaves the store as it is. *)
Theorem custom_accessors_without_program_payload
    (self : TuyaBLENumber) (m : TuyaBLENumberMapping)
    (g : TuyaBLENumberGetter) (s : TuyaBLENumberSetter) :
  _mapping self = Direct m ->
  getter m = Some g ->
  setter m = Some s ->
  (fingerbot (_product self) = None
   \/ exists fb, fingerbot (_product self) = Some fb
        /\ (fb_program fb = 0
            \/ datapoints (_device self) !! fb_program fb = None
            \/ exists dp n, datapoints (_device self) !! fb_program fb = Some dp
                            /\ value dp = VInt n)) ->
  native_value self = Ok None
  /\ forall v, set_native_value self v = Ok (datapoints (_device self), []).
Proof.
  intros Hm Hg Hs Hcase.
  assert (Hget : call_getter g self (_product self) = Ok None).
  { destruct g; cbn [call_getter];
      unfold get_fingerbot_program_repeat_count, get_fingerbot_program_position,
        datapoints_getitem;
      destruct Hcase as [-> | (fb & -> & [-> | [-> | (dp & n & -> & ->)]])];
      try reflexivity; destruct (truthy (fb_program fb)); reflexivity. }
  assert (Hset : forall v, call_setter s self (_product self) v = Ok []).
  { intros v. destruct s; cbn [call_setter];
      unfold set_fingerbot_program_repeat_count, set_fingerbot_program_position,
        datapoints_getitem;
      destruct Hcase as [-> | (fb & -> & [-> | [-> | (dp & n & -> & ->)]])];
      try reflexivity; destruct (truthy (fb_program fb)); reflexivity. }
  split.
  - unfold native_value. rewrite Hm. cbn [attr_getter]. rewrite Hg. exact Hget.
  - intros v. unfold set_native_value. rewrite Hm. cbn [attr_setter].
    rewrite Hs, Hset. reflexivity.
Qed.

Lemma custom_accessors_without_program_payload_witness :
  let self := fingerbot_entity no_datapoints repeat_count_mapping in
  (exists fb, fingerbot (_product self) = Some fb
     /\ (fb_program fb = 0
         \/ datapoints (_device self) !! fb_program fb = None
         \/ exists dp n, datapoints (_device self) !! fb_program fb = Some dp
                         /\ value dp = VInt n))
  /\ native_value self = Ok None
  /\ set_native_value self float_nan = Ok (no_datapoints, []).
Proof.
  intros self.
  assert (H : exists fb, fingerbot (_product self) = Some fb
     /\ (fb_program fb = 0
         \/ datapoints (_device self) !! fb_program fb = None
         \/ exists dp n, datapoints (_device self) !! fb_program fb = Some dp
                         /\ value dp = VInt n)).
  { exists fingerbot_plus_info. split; [reflexivity |]. right. left. reflexivity. }
  pose proof (custom_accessors_without_program_payload self
    (mk_mapping 121 program_repeats_count_description
       <| with_is_available ref_is_fingerbot_repeat_count_available
       <| with_getter ref_get_fingerbot_program_repeat_count
       <| with_setter ref_set_fingerbot_program_repeat_count)
    ref_get_fingerbot_program_repeat_count ref_set_fingerbot_program_repeat_count
    eq_refl eq_refl eq_refl (or_intror H)) as [H1 H2].
  split; [exact H |]. split; [exact H1 | exact (H2 float_nan)].
Defined.

(* ===================================================================== *)
(** * Further properties: which descriptors become entities *)
(* ===================================================================== *)

(** The loop over a prefix whose tests cannot fail. *)
Lemma setup_entities_app (data : TuyaBLEData) (pre rest : list Mapping) :
  forallb testable pre = true ->
  forall acc,
    setup_entities data (pre ++ rest) acc
    = setup_entities data rest
        (acc ++ map (number_entity data) (List.filter (selected data) pre)).
Proof.
  induction pre as [|m pre IH]; intros Hp acc.
  - cbn. rewrite app_nil_r. reflexivity.
  - cbn [forallb] in Hp. apply andb_true_iff in Hp as [Hm Hpre].
    cbn [app setup_entities List.filter].
    unfold testable in Hm. unfold selected at 1.
    destruct (attr_force_add m) eqn:Hf; cbn [orb obind].
    + rewrite (IH Hpre). cbn [map]. rewrite <- app_assoc. reflexivity.
    + destruct m as [d|v]; [| discriminate].
      cbn [attr_dp_id attr_dp_type obind].
      destruct (has_id (datapoints (device data)) (dp_id d) (dp_type d)).
      * rewrite (IH Hpre). cbn [map]. rewrite <- app_assoc. reflexivity.
      * rewrite (IH Hpre). reflexivity.
Qed.

(** X16. The selection rule of [async_setup_entry]'s loop, on any list
    whose descriptors are direct or have [force_add] set: the entities are
    the adapters of exactly the descriptors with [force_add] set or whose
    datapoint the store reports (with the descriptor's type, when it names
    one), in the order of the list. *)
Theorem setup_selects_forced_or_reported
    (data : TuyaBLEData) (ms : list Mapping) :
  forallb testable ms = true ->
  setup_entities data ms []
  = Ok (map (number_entity data) (List.filter (selected data) ms)).
Proof.
  intros H. rewrite <- (app_nil_r ms) at 1.
  rewrite (setup_entities_app data ms [] H). reflexivity.
Qed.

Lemma setup_selects_forced_or_reported_witness :
  let data dps := {| device := mk_device "sfkzq" "nxquc5lb" dps;
                     product := plain_product |} in
  let ms := [Direct (mk_mapping 9 (mk_description "time_use"));
             Direct optional_mapping] in
  forallb testable ms = true
  /\ setup_entities (data no_datapoints) ms []
     = Ok [number_entity (data no_datapoints)
             (Direct (mk_mapping 9 (mk_description "time_use")))]
  /\ setup_entities (data (<[11 := int_datapoint 11 60]> ∅)) ms []
     = Ok (map (number_entity (data (<[11 := int_datapoint 11 60]> ∅))) ms)
  /\ setup_entities (data (<[11 := raw_datapoint 11 []]> ∅)) ms []
     = Ok [number_entity (data (<[11 := raw_datapoint 11 []]> ∅))
             (Direct (mk_mapping 9 (mk_description "time_use")))].
Proof.
  intros data ms.
  assert (H : forallb testable ms = true) by reflexivity.
  split; [exact H |]. split; [| split].
  - exact (setup_selects_forced_or_reported (data no_datapoints) ms H).
  - exact (setup_selects_forced_or_reported
             (data (<[11 := int_datapoint 11 60]> ∅)) ms H).
  - exact (setup_selects_forced_or_reported
             (data (<[11 := raw_datapoint 11 []]> ∅)) ms H).
Defined.

(** X17. A virtual descriptor with [force_add=False] breaks the setup:
    the loop reads its [dp_id], which the class does not have, so
    [AttributeError] is raised and no entity of the list is handed to the
    host, also not those before it. *)
Theorem setup_raises_on_optional_virtual
    (data : TuyaBLEData) (pre post : list Mapping)
    (vm : TuyaBLEVirtualNumberMapping) :
  forallb testable pre = true ->
  v_force_add vm = false ->
  setup_entities data (pre ++ Virtual vm :: post) []
  = Raise (AttributeError "dp_id").
Proof.
  intros Hpre Hf. rewrite (setup_entities_app data pre _ Hpre).
  cbn [setup_entities attr_force_add]. rewrite Hf. reflexivity.
Qed.

Lemma setup_raises_on_optional_virtual_witness :
  let pre := [Direct (mk_mapping 9 (mk_description "time_use"))] in
  forallb testable pre = true
  /\ v_force_add optional_virtual_mapping = false
  /\ setup_entities water_valve_data
       (pre ++ Virtual optional_virtual_mapping :: []) []
     = Raise (AttributeError "dp_id").
Proof.
  intros pre. split; [reflexivity |]. split; [reflexivity |].
  exact (setup_raises_on_optional_virtual water_valve_data pre []
           optional_virtual_mapping eq_refl eq_refl).
Defined.

(* ===================================================================== *)
(** * Further properties: the registry *)
(* ===================================================================== *)

Lemma registry_forall (P : Mapping -> bool) (Q : list Mapping -> bool) :
  forallb (fun l => Q l && forallb P l) (reachable_lists mapping) = true ->
  Q [] = true ->
  forall d : TuyaBLEDevice,
    Q (get_mapping_by_device d) = true
    /\ forall m, m ∈ get_mapping_by_device d -> P m = true.
Proof.
  intros Hall Hnil d. unfold get_mapping_by_device.
  rewrite forallb_forall in Hall.
  destruct (resolve_reachable mapping d) as [E | Hin].
  - rewrite E. split; [exact Hnil |]. intros m Hm. inversion Hm.
  - apply list_elem_of_In, Hall in Hin.
    apply andb_true_iff in Hin as [HQ HP]. split; [exact HQ |].
    intros m Hm. rewrite forallb_forall in HP.
    apply HP, list_elem_of_In, Hm.
Qed.

(** X18. No two descriptors resolved for a device share a key, so the
    entities of a device are told apart by their keys, although two of
    them may share a datapoint, as the two program controls of a
    Fingerbot Plus do. *)
Theorem resolved_keys_distinct (d : TuyaBLEDevice) :
  NoDup (map key_of (get_mapping_by_device d))
  /\ (forall dps,
        exists m1 m2 i,
          Direct m1 ∈ get_mapping_by_device (mk_device "szjqr" "blliqpsj" dps)
          /\ Direct m2 ∈ get_mapping_by_device (mk_device "szjqr" "blliqpsj" dps)
          /\ m1 <> m2 /\ dp_id m1 = i /\ dp_id m2 = i).
Proof.
  split.
  - assert (H : forallb (fun l => keys_distinct l && forallb (fun _ => true) l)
                  (reachable_lists mapping) = true) by (vm_compute; reflexivity).
    destruct (registry_forall (fun _ => true) keys_distinct H eq_refl d) as [Hk _].
    unfold keys_distinct in Hk. apply bool_decide_eq_true in Hk. exact Hk.
  - intros dps.
    assert (E : get_mapping_by_device (mk_device "szjqr" "blliqpsj" dps)
                = fingerbot_plus_szjqr) by (vm_compute; reflexivity).
    rewrite E.
    eexists _, _, 121. split; [| split; [| split; [| split]]].
    + apply list_elem_of_In. do 3 right. left. reflexivity.
    + apply list_elem_of_In. do 4 right. left. reflexivity.
    + intros H. apply (f_equal (fun m => key (description m))) in H.
      vm_compute in H. discriminate H.
    + reflexivity.
    + reflexivity.
Qed.

(** X19. Every descriptor the registry resolves is well formed: a direct
    one scales by 1.0 or 10.0 (so reading never divides by zero), has an
    integer minimum not above its integer maximum, has a custom getter
    exactly when it has a custom setter, and names no datapoint type; a
    virtual one has no custom getter or setter. *)
Theorem resolved_descriptors_well_formed (d : TuyaBLEDevice) (m : Mapping) :
  m ∈ get_mapping_by_device d ->
  match m with
  | Direct dm =>
      (coefficient dm = PyFloat.one \/ coefficient dm = PyFloat.ten)
      /\ PyFloat.is_zero (coefficient dm) = false
      /\ (exists lo hi,
            native_min_value (description dm) = Some (PyInt lo)
            /\ native_max_value (description dm) = Some (PyInt hi)
            /\ lo <= hi)
      /\ (getter dm = None <-> setter dm = None)
      /\ dp_type dm = None
  | Virtual vm => v_getter vm = None /\ v_setter vm = None
  end.
Proof.
  intros Hm.
  assert (H : forallb (fun l => true && forallb descriptor_well_formed l)
                (reachable_lists mapping) = true) by (vm_compute; reflexivity).
  destruct (registry_forall descriptor_well_formed (fun _ => true) H eq_refl d)
    as [_ Hw].
  specialize (Hw m Hm). unfold descriptor_well_formed in Hw.
  clear H Hm. destruct m as [dm|vm].
  - apply andb_true_iff in Hw as [Hw H4].
    apply andb_true_iff in Hw as [Hw H3].
    apply andb_true_iff in Hw as [Hw H2].
    assert (Hc : coefficient dm = PyFloat.one \/ coefficient dm = PyFloat.ten).
    { apply orb_true_iff in Hw as [Hw | Hw].
      - left. destruct (PyFloat.eq_dec (coefficient dm) PyFloat.one);
          [assumption | discriminate].
      - right. destruct (PyFloat.eq_dec (coefficient dm) PyFloat.ten);
          [assumption | discriminate]. }
    split; [exact Hc |]. split; [destruct Hc as [-> | ->]; reflexivity |].
    split; [| split].
    + destruct (native_min_value (description dm)) as [[lo|]|],
        (native_max_value (description dm)) as [[hi|]|];
        cbn in H2; try discriminate H2.
      exists lo, hi. repeat split. apply Z.leb_le. exact H2.
    + destruct (getter dm), (setter dm); try discriminate H3; split; congruence.
    + destruct (dp_type dm); [discriminate H4 | reflexivity].
  - destruct (v_getter vm), (v_setter vm); try discriminate Hw. split; reflexivity.
Qed.

Lemma resolved_descriptors_well_formed_witness :
  Direct hold_time_mapping
    ∈ get_mapping_by_device (mk_device "szjqr" "ltak7e1p" no_datapoints)
  /\ coefficient hold_time_mapping = PyFloat.ten.
Proof.
  assert (H : Direct hold_time_mapping
                ∈ get_mapping_by_device (mk_device "szjqr" "ltak7e1p" no_datapoints)).
  { apply list_elem_of_In. vm_compute. tauto. }
  split; [exact H |].
  destruct (proj1 (resolved_descriptors_well_formed _ _ H)) as [E | E].
  - discriminate E.
  - exact E.
Defined.

(* ===================================================================== *)
(** * Further properties: a device that has reported nothing yet *)
(* ===================================================================== *)

Lemma predicates_on_empty_store (self : TuyaBLENumber) (p : TuyaBLEProductInfo)
    (f : TuyaBLENumberIsAvailable) :
  datapoints (_device self) = ∅ ->
  call_is_available f self p = true.
Proof.
  intros He.
  destruct f; cbn [call_is_available];
    unfold is_fingerbot_in_program_mode, is_fingerbot_not_in_program_mode,
      is_fingerbot_in_push_mode, is_fingerbot_repeat_count_available,
      datapoints_getitem;
    rewrite He; destruct (fingerbot p) as [fb|]; try reflexivity;
    rewrite ?lookup_empty; try reflexivity.
  destruct (truthy (fb_program fb)); reflexivity.
Qed.

Lemma getters_on_empty_store (self : TuyaBLENumber) (p : TuyaBLEProductInfo)
    (g : TuyaBLENumberGetter) :
  datapoints (_device self) = ∅ ->
  call_getter g self p = Ok None.
Proof.
  intros He.
  destruct g; cbn [call_getter];
    unfold get_fingerbot_program_repeat_count, get_fingerbot_program_position,
      datapoints_getitem;
    rewrite He; destruct (fingerbot p) as [fb|]; try reflexivity;
    rewrite lookup_empty; destruct (truthy (fb_program fb)); reflexivity.
Qed.

(** X20. On a device that has reported no datapoint yet, setup still
    builds one adapter per resolved descriptor, in order, each holding its
    descriptor, the device and the product. Each adapter is available when
    the host entity is. Reading the adapter of a direct descriptor gives
    the descriptor's minimum (no custom getter) or [None] (custom getter)
    without raising; reading the adapter of a virtual descriptor raises
    [AttributeError]. *)
Theorem adapters_before_first_report (data : TuyaBLEData) :
  datapoints (device data) = ∅ ->
  exists es,
    async_setup_entry data = Ok es
    /\ Forall2
         (fun m e =>
            exists n, e = NumberEntity_ n
              /\ _mapping n = m
              /\ _device n = device data
              /\ _product n = product data
              /\ available n true = true
              /\ native_value n
                 = match m with
                   | Direct dm =>
                       Ok (match getter dm with
                           | Some _ => None
                           | None => native_min_value (description dm)
                           end)
                   | Virtual _ => Raise (AttributeError "dp_id")
                   end)
         (get_mapping_by_device (device data)) es.
Proof.
  intros He.
  exists (map (number_entity data) (get_mapping_by_device (device data))).
  split; [apply setup_registry_entities |].
  apply Forall2_map_intro. intros m Hm.
  exists (TuyaBLENumber_init (device data) (product data) m).
  split; [reflexivity |]. split; [reflexivity |].
  split; [reflexivity |]. split; [reflexivity |].
  assert (Hd : datapoints (_device (TuyaBLENumber_init (device data) (product data) m))
               = ∅) by exact He.
  split.
  - unfold available.
    destruct (attr_is_available _) as [f|]; [| reflexivity].
    apply predicates_on_empty_store, Hd.
  - destruct m as [dm|vm].
    + unfold native_value.
      cbn [TuyaBLENumber_init _mapping _product attr_getter attr_dp_id
           attr_description obind].
      destruct (getter dm) as [g|].
      * apply getters_on_empty_store, Hd.
      * unfold datapoints_getitem. rewrite Hd, lookup_empty. reflexivity.
    + apply (native_value_of_virtual _ vm); [reflexivity |].
      exact (registry_virtual_no_getter _ _ Hm).
Qed.

Lemma adapters_before_first_report_witness :
  datapoints (device water_valve_data) = ∅
  /\ exists es n,
    async_setup_entry water_valve_data = Ok es
    /\ es !! 0%nat = Some (NumberEntity_ n)
    /\ key_of (_mapping n) = "time_use"
    /\ available n true = true
    /\ native_value n = Ok (Some (PyInt 0)).
Proof.
  split; [reflexivity |].
  destruct (adapters_before_first_report water_valve_data eq_refl)
    as (es & Hes & Hall).
  change (get_mapping_by_device (device water_valve_data))
    with smart_water_valve in Hall.
  unfold smart_water_valve in Hall.
  inversion Hall as [| m1 e1 l1 es1 (n & -> & Hm & _ & _ & Ha & Hv) _]; subst.
  exists (NumberEntity_ n :: es1), n.
  split; [exact Hes |]. split; [reflexivity |].
  split; [rewrite Hm; reflexivity |]. split; [exact Ha | exact Hv].
Defined.

(* ===================================================================== *)
(** * Further properties: identity of a virtual entity *)
(* ===================================================================== *)

Lemma string_length_append (a b : string) :
  String.length (a +:+ b) = (String.length a + String.length b)%nat.
Proof. induction a as [|c a IH]; simpl; [reflexivity | now rewrite IH]. Qed.

Lemma string_append_cancel_l (s a b : string) : s +:+ a = s +:+ b -> a = b.
Proof.
  induction s as [|c s IH]; simpl; intros H; [exact H |].
  injection H as H. exact (IH H).
Qed.

Lemma string_append_cancel_r (s a b : string) : a +:+ s = b +:+ s -> a = b.
Proof.
  revert b. induction a as [|c a IH]; intros [|c' b] H; simpl in H.
  - reflexivity.
  - exfalso. apply (f_equal String.length) in H.
    rewrite !string_length_append in H. simpl in H. lia.
  - exfalso. apply (f_equal String.length) in H.
    rewrite !string_length_append in H. simpl in H. lia.
  - injection H as -> H. f_equal. exact (IH _ H).
Qed.

(** X21. The unique id of a virtual entity: for one device, two virtual
    descriptors get the same unique id exactly when they have the same
    key; for one descriptor, two devices get the same unique id exactly
    when they have the same address. *)
Theorem virtual_identity_injective
    (dev dev' : TuyaBLEDevice) (m m' : TuyaBLEVirtualNumberMapping) :
  (_attr_unique_id (TuyaBLEVirtualNumber_init dev m)
   = _attr_unique_id (TuyaBLEVirtualNumber_init dev m')
   <-> key (v_description m) = key (v_description m'))
  /\ (_attr_unique_id (TuyaBLEVirtualNumber_init dev m)
      = _attr_unique_id (TuyaBLEVirtualNumber_init dev' m)
      <-> address dev = address dev').
Proof.
  cbn [TuyaBLEVirtualNumber_init _attr_unique_id].
  split; split.
  - intros H. apply string_append_cancel_l in H.
    exact (string_append_cancel_l _ _ _ H).
  - intros ->. reflexivity.
  - intros H. exact (string_append_cancel_r _ _ _ H).
  - intros ->. reflexivity.
Qed.
